(** * FileTimeSeries: the database writer of [fts/database.py]

    A shallow embedding of [pandas_dtype_to_sqlite_type], [table_exists],
    [add_table], [write_to_db] and [listen_and_write], together with the
    parts of pandas, sqlite3, queue and threading that these functions
    call.  Python exceptions are values of [exn]; every effectful function
    lives in the state-and-exception monad [M] over the record [World]. *)

From Stdlib Require Import ZArith Lia Ascii.
From stdpp Require Import base strings gmap list.

Local Open Scope Z_scope.

(** ** Text helpers *)

Module Str.

(** The double-quote character and the line feed, written by code point. *)
Definition dquote : string := String "034"%char EmptyString.
Definition LF : string := String "010"%char EmptyString.

(** [os.linesep] on the POSIX hosts the tool runs on. *)
Definition linesep : string := LF.

(** [sep.join(parts)] for a list of [str]. *)
Fixpoint join (sep : string) (parts : list string) : string :=
  match parts with
  | [] => EmptyString
  | [p] => p
  | p :: rest => p +:+ sep +:+ join sep rest
  end.

End Str.

(** ** Python exceptions

    Only subclasses of [Exception] are modelled: they are what the called
    code raises.  [KeyboardInterrupt] and [SystemExit] are delivered to the
    main thread or raised by [sys.exit], neither of which occurs in
    [database.py]. *)

Inductive exn : Type :=
| ValueError (msg : string)
| TypeError (msg : string)
| KeyError (key : string)
| AttributeError (msg : string)
| UnboundLocalError (variable : string)
| OverflowError (msg : string)
| sqlite3_Error (msg : string).

#[global] Instance exn_eq_dec : EqDecision exn.
Proof. solve_decision. Defined.

Inductive result (A : Type) : Type :=
| Ok (a : A)
| Raise (e : exn).
Arguments Ok {A} a.
Arguments Raise {A} e.

(** ** pandas *)

Module pandas.

(** Column dtypes, by kind.  Widths cover [int8] .. [int64], [uint8] ..
    [uint64], [float16] .. [float64] and the nullable extension dtypes of
    the same kinds. *)
Inductive Dtype : Type :=
| integer_dtype (signed : bool) (bits : N)
| bool_dtype
| float_dtype (bits : N)
| complex_dtype (bits : N)
| datetime64_dtype
| timedelta64_dtype
| string_dtype
| object_dtype.

#[global] Instance Dtype_eq_dec : EqDecision Dtype.
Proof. solve_decision. Defined.

(** [pandas.api.types.is_integer_dtype]: signed and unsigned integers;
    booleans and the datetime-like dtypes are excluded. *)
Definition is_integer_dtype (dtype : Dtype) : bool :=
  match dtype with
  | integer_dtype _ _ => true
  | _ => false
  end.

(** [pandas.api.types.is_bool_dtype] *)
Definition is_bool_dtype (dtype : Dtype) : bool :=
  match dtype with
  | bool_dtype => true
  | _ => false
  end.

(** [pandas.api.types.is_float_dtype] *)
Definition is_float_dtype (dtype : Dtype) : bool :=
  match dtype with
  | float_dtype _ => true
  | _ => false
  end.

(** Cell values as Python scalars; a float is kept as its bit pattern.
    The numpy scalars that [.values] hands out for a frame of one numeric
    dtype are not told apart from them. *)
Inductive value : Type :=
| NoneValue
| IntValue (z : Z)
| BoolValue (b : bool)
| FloatValue (bits : Z)
| StrValue (s : string).

#[global] Instance value_eq_dec : EqDecision value.
Proof. solve_decision. Defined.

(** One level of an index: its name ([None] when unnamed) and its dtype. *)
Record Level : Type := { level_name : option string; level_dtype : Dtype }.

(** [data.index]: a flat [pandas.Index] (this includes [RangeIndex], the
    default of an unindexed frame) or a [pandas.MultiIndex], which has at
    least one level. *)
Inductive Index : Type :=
| FlatIndex (name : option string) (dtype : Dtype)
| MultiIndex (level0 : Level) (levels : list Level).

(** A frame: the index, the columns with their dtypes (labels are [str]),
    and the rows, each with its index tuple and its cells. *)
Record DataFrame : Type := {
  index : Index;
  columns : list (string * Dtype);
  rows : list (list value * list value)
}.

(** [Index.name] *)
Definition Index_name (idx : Index) : option string :=
  match idx with
  | FlatIndex name _ => name
  | MultiIndex _ _ => None
  end.

(** [Index.names]: a [FrozenList] with one entry per level. *)
Definition Index_names (idx : Index) : list (option string) :=
  match idx with
  | FlatIndex name _ => [name]
  | MultiIndex level0 levels => level_name level0 :: map level_name levels
  end.

(** [Index.dtype]: a [MultiIndex] reports [object]. *)
Definition Index_dtype (idx : Index) : Dtype :=
  match idx with
  | FlatIndex _ dtype => dtype
  | MultiIndex _ _ => object_dtype
  end.

(** [x is None] for an attribute that holds [None] or a [str]. *)
Definition is_None {A : Type} (x : option A) : bool :=
  match x with
  | None => true
  | Some _ => false
  end.

(** [names is None] for a [FrozenList]: a list object, even an empty one,
    is not the [None] singleton. *)
Definition FrozenList_is_None (names : list (option string)) : bool := false.

(** Truth value of a [FrozenList]: its length is not zero. *)
Definition FrozenList_bool (names : list (option string)) : bool :=
  match names with
  | [] => false
  | _ :: _ => true
  end.

(** [format(name)] inside an f-string. *)
Definition format_name (name : option string) : string :=
  match name with
  | Some s => s
  | None => "None"
  end.

(** The number as decimal text, as in [f"level_{i}"]. *)
Definition digit (d : nat) : string :=
  String (ascii_of_nat (48 + d)) EmptyString.

Fixpoint decimal_fuel (fuel n : nat) : string :=
  match fuel with
  | O => EmptyString
  | S fuel' =>
      if decide (n < 10)%nat then digit n
      else decimal_fuel fuel' (n / 10) +:+ digit (n mod 10)
  end.

Definition decimal (n : nat) : string := decimal_fuel (S n) n.

(** [com.fill_missing_names]: an unnamed level [i] is called [level_i]. *)
Fixpoint fill_missing_names_from (i : nat) (names : list (option string))
  : list string :=
  match names with
  | [] => []
  | Some s :: rest => s :: fill_missing_names_from (S i) rest
  | None :: rest =>
      ("level_" +:+ decimal i) :: fill_missing_names_from (S i) rest
  end.

Definition fill_missing_names := fill_missing_names_from 0.

(** A [Series] of dtypes keyed by label, as [data.dtypes] and
    [MultiIndex.dtypes] return it. *)
Definition DtypeSeries : Type := list (string * Dtype).

(** [series[key]].  A missing key, [None] included, is a [KeyError]; a
    label that occurs once gives its dtype; a repeated label gives the
    sub-series of its entries, whose own dtype is [object], and that is
    what the [is_*_dtype] predicates then look at. *)
Definition Series_getitem (series : DtypeSeries) (key : option string)
  : result Dtype :=
  match key with
  | None => Raise (KeyError "None")
  | Some label =>
      match filter (fun entry => bool_decide (entry.1 = label)) series with
      | [] => Raise (KeyError label)
      | [entry] => Ok entry.2
      | _ :: _ :: _ => Ok object_dtype
      end
  end.

(** [Index.dtypes]: only a [MultiIndex] has the attribute. *)
Definition Index_dtypes (idx : Index) : result DtypeSeries :=
  match idx with
  | FlatIndex _ _ =>
      Raise (AttributeError "'Index' object has no attribute 'dtypes'")
  | MultiIndex level0 levels =>
      Ok (zip (fill_missing_names (Index_names idx))
              (map level_dtype (level0 :: levels)))
  end.

(** [data.columns] as a list of labels, and [data.dtypes]. *)
Definition DataFrame_columns (data : DataFrame) : list string :=
  map fst (columns data).

Definition DataFrame_dtypes (data : DataFrame) : DtypeSeries := columns data.

(** [len(data)]: the number of rows. *)
Definition DataFrame_len (data : DataFrame) : Z :=
  Z.of_nat (length (rows data)).

(** [bool(data)]: [NDFrame.__bool__] raises for every frame, empty or
    not; pandas refuses to give a frame a truth value. *)
Definition ambiguous_truth : string :=
  "The truth value of a DataFrame is ambiguous. Use a.empty, a.bool(), a.item(), a.any() or a.all().".

Definition DataFrame_bool (data : DataFrame) : result bool :=
  Raise (ValueError ambiguous_truth).

(** [data.reset_index(drop=False)]: every level becomes a column in
    front of the others.  Levels are inserted last to first, each at
    position 0, and a label that is already a column is refused.  A flat
    unnamed index is called [index], or [level_0] when [index] is taken. *)
Definition reset_index_names (data : DataFrame) : list string :=
  match index data with
  | FlatIndex None _ =>
      if bool_decide ("index" ∈ DataFrame_columns data)
      then ["level_0"] else ["index"]
  | idx => fill_missing_names (Index_names idx)
  end.

Fixpoint insert_levels (to_insert : list string) (labels : list string)
  : result (list string) :=
  match to_insert with
  | [] => Ok labels
  | name :: rest =>
      if bool_decide (name ∈ labels)
      then Raise (ValueError ("cannot insert " +:+ name +:+ ", already exists"))
      else insert_levels rest (name :: labels)
  end.

(** [data.reset_index(drop=False).values]: the rows of the new frame. *)
Definition reset_index_values (data : DataFrame) : result (list (list value)) :=
  match insert_levels (rev (reset_index_names data)) (DataFrame_columns data) with
  | Raise e => Raise e
  | Ok _ => Ok (map (fun row => row.1 ++ row.2) (rows data))
  end.

End pandas.

(** ** Type mapper ([database.py], lines 187-200) *)

Definition pandas_dtype_to_sqlite_type (dtype : pandas.Dtype) : string :=
  if pandas.is_integer_dtype dtype then "INTEGER"
  else if pandas.is_bool_dtype dtype then "INTEGER"
  else if pandas.is_float_dtype dtype then "REAL"
  else "TEXT".

(** ** The world: database files, connections, logging *)

(** An entry of the catalog that a table name can resolve to.  A table as
    the engine keeps it: the [CREATE] text ([sqlite_master] stores it), the
    column names, the key columns and the stored rows (one value per column,
    in column order).  Or a view, of which only the name matters here.  The
    indexes and triggers of a database are not represented. *)
Record Table : Type := {
  tbl_sql : string;
  tbl_columns : list string;
  tbl_primary_key : list string;
  tbl_rows : list (list pandas.value);
  tbl_is_view : bool
}.

(** A record handed to the [logging] module. *)
Record LogRecord : Type := {
  levelname : string;
  message : string;
  exc_info : option exn
}.

(** [files] maps a path to the committed content of the database stored
    there, its tables and views by name (a path with no file and a file
    with nothing in it are not told apart); [connections] maps each open
    handle to its path and to the
    content as that connection sees it (committed rows and its own pending
    ones).  [faults] is the environment's plan for the engine: every engine
    call takes the next entry and fails when it is [true]; an exhausted plan
    means no further failure. *)
Record World : Type := {
  files : gmap string (gmap string Table);
  connections : gmap nat (string * gmap string Table);
  next_handle : nat;
  faults : list bool;
  log : list LogRecord
}.

Definition set_files (f : gmap string (gmap string Table)) (w : World) : World :=
  {| files := f; connections := connections w; next_handle := next_handle w;
     faults := faults w; log := log w |}.

Definition set_connections (c : gmap nat (string * gmap string Table))
  (w : World) : World :=
  {| files := files w; connections := c; next_handle := next_handle w;
     faults := faults w; log := log w |}.

Definition set_next_handle (n : nat) (w : World) : World :=
  {| files := files w; connections := connections w; next_handle := n;
     faults := faults w; log := log w |}.

Definition set_faults (f : list bool) (w : World) : World :=
  {| files := files w; connections := connections w;
     next_handle := next_handle w; faults := f; log := log w |}.

Definition set_log (l : list LogRecord) (w : World) : World :=
  {| files := files w; connections := connections w;
     next_handle := next_handle w; faults := faults w; log := l |}.

(** A world with no file, no connection, no planned failure, an empty log. *)
Definition empty_world : World :=
  {| files := ∅; connections := ∅; next_handle := 0; faults := []; log := [] |}.

(** ** The monad of effectful Python code

    A computation takes the world and gives back a value or a raised
    exception, with the world as it is at that moment: what was done before
    an exception stays done. *)

Definition M (A : Type) : Type := World → result A * World.

Definition ret {A : Type} (a : A) : M A := fun w => (Ok a, w).

Definition raise {A : Type} (e : exn) : M A := fun w => (Raise e, w).

Definition bind {A B : Type} (m : M A) (k : A → M B) : M B :=
  fun w =>
    match m w with
    | (Ok a, w1) => k a w1
    | (Raise e, w1) => (Raise e, w1)
    end.

(** A pure computation that may raise. *)
Definition lift {A : Type} (r : result A) : M A := fun w => (r, w).

Declare Scope py_scope.
Delimit Scope py_scope with py.
Notation "x <- m ;; k" := (bind m (fun x => k))
  (at level 100, m at next level, right associativity) : py_scope.
Notation "m ;;; k" := (bind m (fun _ => k))
  (at level 100, right associativity) : py_scope.
Local Open Scope py_scope.

(** [try: body  except Exception as e: handler(e)] *)
Definition try_except {A : Type} (body : M A) (handler : exn → M A) : M A :=
  fun w =>
    match body w with
    | (Ok a, w1) => (Ok a, w1)
    | (Raise e, w1) => handler e w1
    end.

(** A local variable of a function body: not yet assigned, or assigned. *)
Inductive local (A : Type) : Type :=
| Unbound
| Bound (a : A).
Arguments Unbound {A}.
Arguments Bound {A} a.

(** Reading a local: an unassigned one raises. *)
Definition read_local {A : Type} (variable : string) (l : local A) : M A :=
  match l with
  | Unbound => raise (UnboundLocalError variable)
  | Bound a => ret a
  end.

(** [try: x = assign; rest(x)  finally: final], where [x] is a local whose
    state before the [try] is [before] and [store_as] is how an assigned
    value sits in it.  [final] runs on every way out and sees [x] as the
    body left it; when [final] itself raises, its exception is the one that
    leaves the statement. *)
Definition try_finally {X L A : Type} (before : local L)
  (assign : M X) (store_as : X → L) (rest : X → M A)
  (final : local L → M unit) : M A :=
  fun w =>
    let '(outcome, seen, w1) :=
      match assign w with
      | (Raise e, w1) => (Raise e, before, w1)
      | (Ok x, w1) =>
          match rest x w1 with
          | (r, w2) => (r, Bound (store_as x), w2)
          end
      end in
    match final seen w1 with
    | (Ok _, w2) => (outcome, w2)
    | (Raise e, w2) => (Raise e, w2)
    end.

(** ** logging *)

Module logging.

Definition emit (level msg : string) (exc : option exn) : M unit :=
  fun w =>
    (Ok tt, set_log (log w ++ [{| levelname := level; message := msg;
                                  exc_info := exc |}]) w).

Definition debug (msg : string) : M unit := emit "DEBUG" msg None.
Definition error (msg : string) : M unit := emit "ERROR" msg None.

(** [Logger.exception(msg, exc_info=e)]: level [ERROR] with the exception
    attached. *)
Definition exception (msg : string) (e : exn) : M unit :=
  emit "ERROR" msg (Some e).

End logging.

(** ** sqlite3

    The engine is driven by the statements [database.py] builds.  Each
    operation below receives the statement text together with the names
    and values the text was built from, and does what SQLite 3.40, driven
    by Python's [sqlite3], does with a statement of that shape:

    - a table or column name is resolved with its ASCII letters folded;
      only the query on [sqlite_master] compares names as written;
    - a name written without quotes must be an identifier that is not a
      reserved word, a name written in double quotes must not hold one;
    - [CREATE TABLE IF NOT EXISTS] does nothing when a table or a view of
      that name is there and else takes effect at once; inserted rows stay
      pending until [commit], and [close] drops what is pending;
    - [":memory:"] and the empty path name a database of the connection's
      own, which no file keeps.

    Not interpreted: names that are no identifier where one is written
    without quotes (a quoted or qualified name, say; the statement is then
    taken as refused), the [rowid] aliases, column affinity (a value is
    kept as it was bound), indexes, triggers, and URI file names. *)

Module sqlite3.

Definition Connection : Type := nat.

Definition next_fault : M bool :=
  fun w =>
    match faults w with
    | [] => (Ok false, w)
    | b :: rest => (Ok b, set_faults rest w)
    end.

(** An engine call fails when the environment says so. *)
Definition engine_call (failure : string) : M unit :=
  failed <- next_fault ;;
  if (failed : bool) then raise (sqlite3_Error failure) else ret tt.

(** *** Names *)

Definition code (c : ascii) : nat := nat_of_ascii c.

Definition is_upper (c : ascii) : bool :=
  (65 <=? code c)%nat && (code c <=? 90)%nat.

Definition is_lower (c : ascii) : bool :=
  (97 <=? code c)%nat && (code c <=? 122)%nat.

Definition is_digit (c : ascii) : bool :=
  (48 <=? code c)%nat && (code c <=? 57)%nat.

(** The engine folds [A] .. [Z] and nothing else. *)
Definition fold_char (c : ascii) : ascii :=
  if is_upper c then ascii_of_nat (code c + 32) else c.

Fixpoint fold_case (s : string) : string :=
  match s with
  | EmptyString => EmptyString
  | String c rest => String (fold_char c) (fold_case rest)
  end.

(** Two spellings of one name. *)
Definition same_name (a b : string) : Prop := fold_case a = fold_case b.

#[global] Instance same_name_dec (a b : string) : Decision (same_name a b).
Proof. unfold same_name. apply _. Defined.

Fixpoint all_chars (p : ascii → bool) (s : string) : bool :=
  match s with
  | EmptyString => true
  | String c rest => p c && all_chars p rest
  end.

(** The characters of an identifier: letters, the underscore and every
    byte of a character beyond ASCII; after the first one also digits and
    the dollar sign. *)
Definition name_start (c : ascii) : bool :=
  is_upper c || is_lower c || (code c =? 95)%nat || (128 <=? code c)%nat.

Definition name_char (c : ascii) : bool :=
  name_start c || is_digit c || (code c =? 36)%nat.

(** The byte order mark, which the engine skips in front of a token. *)
Definition byte_order_mark : string :=
  String (ascii_of_nat 239) (String (ascii_of_nat 187)
    (String (ascii_of_nat 191) EmptyString)).

Definition is_identifier (s : string) : bool :=
  match s with
  | EmptyString => false
  | String c rest =>
      name_start c && all_chars name_char rest &&
      negb (String.prefix byte_order_mark s)
  end.

(** The words the engine refuses where it expects a name. *)
Definition reserved_words : list string :=
  ["add"; "all"; "alter"; "and"; "as"; "autoincrement"; "between"; "case";
   "check"; "collate"; "commit"; "constraint"; "create"; "default";
   "deferrable"; "delete"; "distinct"; "drop"; "else"; "escape"; "except";
   "exists"; "foreign"; "from"; "group"; "having"; "in"; "index"; "insert";
   "intersect"; "into"; "is"; "isnull"; "join"; "limit"; "not"; "nothing";
   "notnull"; "null"; "on"; "or"; "order"; "primary"; "references";
   "returning"; "select"; "set"; "table"; "then"; "to"; "transaction";
   "union"; "unique"; "update"; "using"; "values"; "when"; "where"].

(** A name as it may stand without quotes: after [INTO "t" (], say. *)
Definition parses_as_name (s : string) : bool :=
  is_identifier s && negb (bool_decide (fold_case s ∈ reserved_words)).

(** Inside [PRIMARY KEY (...)] an entry is read as an expression, and
    these words are no column there. *)
Definition expression_words : list string :=
  ["cast"; "current_date"; "current_time"; "current_timestamp"; "raise"].

Definition parses_as_key (s : string) : bool :=
  parses_as_name s && negb (bool_decide (fold_case s ∈ expression_words)).

(** After [CREATE TABLE IF NOT EXISTS] the word [if] does not give a
    table the engine can read back. *)
Definition parses_as_new_table (s : string) : bool :=
  parses_as_name s && negb (bool_decide (fold_case s = "if")).

(** Names that begin with [sqlite_] are the engine's own. *)
Definition reserved_for_engine (s : string) : bool :=
  String.prefix "sqlite_" (fold_case s).

(** A name can be written between double quotes when it holds neither a
    double quote nor a null character. *)
Definition quotable_char (c : ascii) : bool :=
  negb ((code c =? 34)%nat || (code c =? 0)%nat).

Definition quotable (s : string) : bool := all_chars quotable_char s.

(** The text of a [CREATE TABLE IF NOT EXISTS] statement is accepted
    when the table name and the key names can stand without quotes and the
    column names can stand between them. *)
Definition create_accepted (table_name : string)
  (column_names primary_key : list string) : bool :=
  parses_as_new_table table_name && forallb quotable column_names &&
  forallb parses_as_key primary_key.

(** The text of an [INSERT OR IGNORE INTO "t" (c, ...)] statement is
    accepted when the table name can stand between quotes and the column
    names without them. *)
Definition insert_accepted (table_name : string)
  (column_names : list string) : bool :=
  quotable table_name && forallb parses_as_name column_names.

(** Every name of the list is a column of the table. *)
Definition has_columns (table : Table) (column_names : list string) : bool :=
  forallb (fun column => bool_decide (fold_case column ∈
                                      map fold_case (tbl_columns table)))
    column_names.

(** The table a name resolves to, with the spelling the catalog has. *)
Definition find_table (content : gmap string Table) (name : string)
  : option (string * Table) :=
  snd <$> list_find (fun entry => same_name entry.1 name) (map_to_list content).

(** *** Connections *)

(** [":memory:"] and the empty path: the database lives and dies with the
    connection. *)
Definition private_database (path : string) : bool :=
  bool_decide (path = ":memory:") || bool_decide (path = EmptyString).

(** A path the engine takes as the name of a file. *)
Definition names_a_file (path : string) : bool :=
  negb (private_database path) && negb (String.prefix "file:" path).

(** [sqlite3.connect(path)] *)
Definition connect (path : string) : M Connection :=
  engine_call "unable to open database file" ;;;
  fun w =>
    let handle := next_handle w in
    let content :=
      if private_database path then ∅ else default ∅ (files w !! path) in
    (Ok handle,
     set_next_handle (S handle)
       (set_connections (<[handle := (path, content)]> (connections w)) w)).

(** What an open connection sees. *)
Definition view (connection : Connection) : M (string * gmap string Table) :=
  fun w =>
    match connections w !! connection with
    | Some v => (Ok v, w)
    | None => (Raise (sqlite3_Error "Cannot operate on a closed database."), w)
    end.

Definition set_view (connection : Connection) (path : string)
  (content : gmap string Table) : M unit :=
  fun w =>
    (Ok tt, set_connections (<[connection := (path, content)]> (connections w)) w).

(** What is committed reaches the file, when there is one. *)
Definition store (path : string) (content : gmap string Table) : M unit :=
  fun w =>
    if private_database path then (Ok tt, w)
    else (Ok tt, set_files (<[path := content]> (files w)) w).

(** [connection.commit()] *)
Definition commit (connection : Connection) : M unit :=
  engine_call "disk I/O error" ;;;
  v <- view connection ;;
  store v.1 v.2.

(** [connection.close()]: pending changes are dropped. *)
Definition close (connection : Connection) : M unit :=
  engine_call "unable to close" ;;;
  fun w => (Ok tt, set_connections (delete connection (connections w)) w).

(** *** Statements *)

(** [SELECT name FROM sqlite_master WHERE type='table' AND name=?]
    followed by [fetchone()]: the comparison is on the text as written,
    and a view is no table. *)
Definition select_table_name (connection : Connection) (table_name : string)
  : M (option string) :=
  engine_call "database is locked" ;;;
  v <- view connection ;;
  ret (match v.2 !! table_name with
       | Some entry => if tbl_is_view entry then None else Some table_name
       | None => None
       end).

(** What [sqlite_master] keeps of a [CREATE TABLE IF NOT EXISTS]
    statement: [CREATE TABLE] and the text from the table name on. *)
Fixpoint drop_chars (n : nat) (s : string) : string :=
  match n, s with
  | S n', String _ rest => drop_chars n' rest
  | _, _ => s
  end.

Definition catalog_sql (sql : string) : string :=
  "CREATE TABLE " +:+ drop_chars 27 sql.

(** The most columns a table may have. *)
Definition column_limit : nat := 2000.

Definition too_many_columns (column_names : list string) : bool :=
  (column_limit <? length column_names)%nat.

(** [CREATE TABLE IF NOT EXISTS t ("c" type, ..., PRIMARY KEY (k, ...))].
    The text is read first; then nothing happens when a table or a view of
    that name, in any spelling, is there; else the columns are checked and
    the new table takes effect at once (data definition is not held back
    for [commit]). *)
Definition execute_create_table (connection : Connection) (sql : string)
  (table_name : string) (column_names primary_key : list string) : M unit :=
  engine_call "database is locked" ;;;
  v <- view connection ;;
  if negb (create_accepted table_name column_names primary_key)
  then raise (sqlite3_Error "syntax error")
  else if reserved_for_engine table_name
  then raise (sqlite3_Error ("object name reserved for internal use: " +:+
                             table_name))
  else
    match find_table v.2 table_name with
    | Some _ => ret tt
    | None =>
        if too_many_columns column_names
        then raise (sqlite3_Error ("too many columns on " +:+ table_name))
        else if negb (bool_decide (NoDup (map fold_case column_names)))
        then raise (sqlite3_Error "duplicate column name")
        else
          let table := {| tbl_sql := catalog_sql sql;
                          tbl_columns := column_names;
                          tbl_primary_key := primary_key; tbl_rows := [];
                          tbl_is_view := false |} in
          if negb (has_columns table primary_key)
          then raise (sqlite3_Error "no such column")
          else
            let content := <[table_name := table]> v.2 in
            set_view connection v.1 content ;;;
            store v.1 content
    end.

(** A float, kept as the 64 bits of its pattern, is not a number when its
    exponent is all ones and its fraction is not zero. *)
Definition is_nan (bits : Z) : bool :=
  (Z.land (Z.shiftr bits 52) 2047 =? 2047) &&
  negb (Z.land bits (2 ^ 52 - 1) =? 0).

(** Binding a Python value to a parameter: an [int] must fit 64 bits, a
    [bool] is an [int], a float that is not a number becomes [NULL]. *)
Definition bind_parameter (v : pandas.value) : result pandas.value :=
  match v with
  | pandas.IntValue z =>
      if (- 2 ^ 63 <=? z) && (z <? 2 ^ 63) then Ok v
      else Raise (OverflowError
                    "Python int too large to convert to SQLite INTEGER")
  | pandas.BoolValue b => Ok (pandas.IntValue (if b then 1 else 0))
  | pandas.FloatValue bits => if is_nan bits then Ok pandas.NoneValue else Ok v
  | _ => Ok v
  end.

Fixpoint bind_parameters (row : list pandas.value)
  : result (list pandas.value) :=
  match row with
  | [] => Ok []
  | v :: rest =>
      match bind_parameter v with
      | Raise e => Raise e
      | Ok b =>
          match bind_parameters rest with
          | Raise e => Raise e
          | Ok bs => Ok (b :: bs)
          end
      end
  end.

(** The value a statement gives to [column]: that of the first entry of
    its column list with that name, [NULL] when there is none. *)
Fixpoint bound_value (column : string) (column_names : list string)
  (row : list pandas.value) : pandas.value :=
  match column_names, row with
  | name :: names, v :: vs =>
      if bool_decide (same_name name column) then v
      else bound_value column names vs
  | _, _ => pandas.NoneValue
  end.

(** The key of a stored row. *)
Definition key_of (table : Table) (stored : list pandas.value)
  : list pandas.value :=
  map (fun column => bound_value column (tbl_columns table) stored)
      (tbl_primary_key table).

(** Two rows collide on the primary key when the table has one and their
    keys are equal and hold no [NULL]. *)
Definition conflicts (table : Table) (stored : list pandas.value) : bool :=
  let key := key_of table stored in
  negb (bool_decide (tbl_primary_key table = [])) &&
  bool_decide (pandas.NoneValue ∉ key) &&
  bool_decide (key ∈ map (key_of table) (tbl_rows table)).

(** [INSERT OR IGNORE] of one row. *)
Definition insert_or_ignore (column_names : list string)
  (table : Table) (row : list pandas.value) : result Table :=
  if bool_decide (length row = length column_names) then
    match bind_parameters row with
    | Raise e => Raise e
    | Ok bound =>
        let stored :=
          map (fun column => bound_value column column_names bound)
              (tbl_columns table) in
        if conflicts table stored then Ok table
        else Ok {| tbl_sql := tbl_sql table; tbl_columns := tbl_columns table;
                   tbl_primary_key := tbl_primary_key table;
                   tbl_rows := tbl_rows table ++ [stored];
                   tbl_is_view := tbl_is_view table |}
    end
  else Raise (sqlite3_Error "Incorrect number of bindings supplied.").

Fixpoint insert_all (column_names : list string) (table : Table)
  (rows : list (list pandas.value)) : result Table :=
  match rows with
  | [] => Ok table
  | row :: rest =>
      match insert_or_ignore column_names table row with
      | Ok table' => insert_all column_names table' rest
      | Raise e => Raise e
      end
  end.

(** [cursor.executemany(insert_sql, rows)] for the statement
    [INSERT OR IGNORE INTO "t" (c, ...) VALUES (?, ...)]: the text is read
    and the names are resolved before the first row is bound; the rows
    stay pending until [commit]. *)
Definition executemany_insert_or_ignore (connection : Connection)
  (sql : string) (table_name : string) (column_names : list string)
  (rows : list (list pandas.value)) : M unit :=
  engine_call "database is locked" ;;;
  v <- view connection ;;
  if negb (insert_accepted table_name column_names)
  then raise (sqlite3_Error "syntax error")
  else
    match find_table v.2 table_name with
    | None => raise (sqlite3_Error ("no such table: " +:+ table_name))
    | Some (name, table) =>
        if tbl_is_view table
        then raise (sqlite3_Error ("cannot modify " +:+ name +:+
                                   " because it is a view"))
        else if has_columns table column_names
        then
          table' <- lift (insert_all column_names table rows) ;;
          set_view connection v.1 (<[name := table']> v.2)
        else raise (sqlite3_Error ("table " +:+ name +:+
                                   " has no column named"))
    end.

End sqlite3.

Arguments sqlite3.too_many_columns : simpl never.
Arguments sqlite3.create_accepted : simpl never.
Arguments sqlite3.insert_accepted : simpl never.
Arguments sqlite3.has_columns : simpl never.
Arguments sqlite3.reserved_for_engine : simpl never.
Arguments sqlite3.private_database : simpl never.
Arguments sqlite3.find_table : simpl never.

(** ** Pure code that may raise *)

#[global] Instance result_ret : MRet result := fun _ a => Ok a.
#[global] Instance result_bind : MBind result :=
  fun _ _ k r =>
    match r with
    | Ok a => k a
    | Raise e => Raise e
    end.

(** [sep.join(names)] where an entry may be [None]: [str.join] accepts
    only [str] items. *)
Fixpoint all_str (i : nat) (names : list (option string)) : result (list string) :=
  match names with
  | [] => Ok []
  | Some s :: rest => rest' ← all_str (S i) rest; mret (s :: rest')
  | None :: _ =>
      Raise (TypeError ("sequence item " +:+ pandas.decimal i +:+
                        ": expected str instance, NoneType found"))
  end.

Definition join_names (sep : string) (names : list (option string))
  : result string :=
  parts ← all_str 0 names; mret (Str.join sep parts).

(** ** [fts/database.py] *)

Module WriteRequest.
Record t : Type := {
  path : string;
  table_name : string;
  data : pandas.DataFrame
}.
End WriteRequest.

(** [table_exists] (lines 168-184) *)
Definition table_exists (connection : sqlite3.Connection) (table_name : string)
  : M bool :=
  row <- sqlite3.select_table_name connection table_name ;;
  ret (negb (pandas.is_None row)).

(** The column definitions of [add_table] (lines 130-150): one entry per
    index level, or the single inline key when [data.index.names] is
    falsy; one entry per column; the key clause when [data.index.names] is
    truthy. *)
Definition add_table_column_definitions (data : pandas.DataFrame)
  : result (list string) :=
  let names := pandas.Index_names (pandas.index data) in
  index_definitions ←
    (if pandas.FrozenList_bool names then
       mapM (fun column_name =>
               dtypes ← pandas.Index_dtypes (pandas.index data);
               dtype ← pandas.Series_getitem dtypes column_name;
               mret (Str.dquote +:+ pandas.format_name column_name +:+
                     Str.dquote +:+ " " +:+ pandas_dtype_to_sqlite_type dtype))
            names
     else
       mret [pandas.format_name (pandas.Index_name (pandas.index data)) +:+
             " " +:+
             pandas_dtype_to_sqlite_type (pandas.Index_dtype (pandas.index data))
             +:+ " PRIMARY KEY"]);
  other_definitions ←
    mapM (fun column =>
            dtype ← pandas.Series_getitem (pandas.DataFrame_dtypes data)
                      (Some column);
            mret (Str.dquote +:+ column +:+ Str.dquote +:+ " " +:+
                  pandas_dtype_to_sqlite_type dtype))
         (pandas.DataFrame_columns data);
  key_clause ←
    (if pandas.FrozenList_bool names then
       joined ← join_names ", " names;
       mret ["PRIMARY KEY (" +:+ joined +:+ ")"]
     else mret []);
  mret (index_definitions ++ other_definitions ++ key_clause).

(** The [CREATE] statement (lines 152-156). *)
Definition table_creation_sql (table_name : string)
  (column_definitions : list string) : string :=
  let column_definition_sql :=
    Str.join ("," +:+ Str.linesep +:+ "    ") column_definitions in
  "CREATE TABLE IF NOT EXISTS " +:+ table_name +:+ " (" +:+ Str.LF +:+
  "    " +:+ column_definition_sql +:+ Str.LF +:+ ")".

(** The [finally] block of [add_table] (lines 160-165). *)
Definition add_table_finally (connection : local (option sqlite3.Connection))
  : M unit :=
  c <- read_local "connection" connection ;;
  match c with
  | None => ret tt
  | Some handle =>
      try_except (sqlite3.close handle)
        (fun e => logging.exception "Failed to close database connection" e)
  end.

(** The statements of [add_table] between [connect] and [finally]
    (lines 127-159): nothing to do when the table is there, else build the
    [CREATE] statement, execute it and commit. *)
Definition add_table_create (connection : sqlite3.Connection)
  (table_name : string) (data : pandas.DataFrame) : M unit :=
  present <- table_exists connection table_name ;;
  if (present : bool) then ret tt
  else
    column_definitions <- lift (add_table_column_definitions data) ;;
    let sql := table_creation_sql table_name column_definitions in
    sqlite3.execute_create_table connection sql table_name
      (map pandas.format_name (pandas.Index_names (pandas.index data)) ++
       pandas.DataFrame_columns data)
      (map pandas.format_name (pandas.Index_names (pandas.index data))) ;;;
    sqlite3.commit connection.

(** The body of [add_table] under the lock (lines 123-165): [connection]
    is [None] before the [try].  The re-entrant lock has one holder
    throughout and is not represented. *)
Definition add_table_locked (path table_name : string)
  (data : pandas.DataFrame) : M unit :=
  try_finally (Bound None) (sqlite3.connect path) Some
    (fun connection => add_table_create connection table_name data)
    add_table_finally.

Definition no_data_message (table_name : string) : string :=
  "Cannot add the '" +:+ table_name +:+
  "' table - there is no data to base it off of".

Definition no_index_message : string :=
  "The dataframe to base the table off of must have a named index/indices and it does not".

(** The guard of lines 117-118: [if not data: raise ValueError(...)]. *)
Definition add_table_data_guard (table_name : string)
  (data : pandas.DataFrame) : result unit :=
  truth ← pandas.DataFrame_bool data;
  if negb truth then Raise (ValueError (no_data_message table_name))
  else Ok tt.

(** The guard of lines 120-121. *)
Definition add_table_index_guard (data : pandas.DataFrame) : result unit :=
  if pandas.is_None (pandas.Index_name (pandas.index data)) &&
     pandas.FrozenList_is_None (pandas.Index_names (pandas.index data))
  then Raise (ValueError no_index_message)
  else Ok tt.

(** [add_table] (lines 102-165) *)
Definition add_table (path table_name : string) (data : pandas.DataFrame)
  : M unit :=
  lift (add_table_data_guard table_name data) ;;;
  lift (add_table_index_guard data) ;;;
  add_table_locked path table_name data.

(** The [INSERT] statement of [write_to_db] (lines 76-82). *)
Definition insert_sql (table_name : string)
  (column_names : list (option string)) : result string :=
  let sep := ", " +:+ Str.linesep +:+ "    " in
  joined ← join_names sep column_names;
  mret ("INSERT OR IGNORE INTO " +:+ Str.dquote +:+ table_name +:+
        Str.dquote +:+ " (" +:+ Str.LF +:+
        "    " +:+ joined +:+ Str.LF +:+
        ") VALUES (" +:+ Str.LF +:+
        "    " +:+ Str.join sep (map (fun _ => "?") column_names) +:+ Str.LF +:+
        ")" +:+ Str.LF).

(** The [finally] block of [write_to_db] (lines 94-99). *)
Definition write_to_db_finally (connection : local sqlite3.Connection)
  : M unit :=
  handle <- read_local "connection" connection ;;
  try_except (sqlite3.close handle)
    (fun e => logging.exception "Failed to close connection" e).

(** The statements of [write_to_db] between [connect] and [finally]
    (lines 91-93). *)
Definition write_to_db_execute (connection : sqlite3.Connection)
  (sql table_name : string) (column_names : list (option string))
  (rows : list (list pandas.value)) : M unit :=
  sqlite3.executemany_insert_or_ignore connection sql table_name
    (map pandas.format_name column_names) rows ;;;
  sqlite3.commit connection.

(** The part of [write_to_db] after the call of [add_table]
    (lines 76-99): [connection] has no value before the [try]. *)
Definition write_to_db_insert (path table_name : string)
  (data : pandas.DataFrame) : M unit :=
  let column_names :=
    pandas.Index_names (pandas.index data) ++
    map Some (pandas.DataFrame_columns data) in
  sql <- lift (insert_sql table_name column_names) ;;
  rows <- lift (pandas.reset_index_values data) ;;
  try_finally Unbound (sqlite3.connect path) id
    (fun connection =>
       write_to_db_execute connection sql table_name column_names rows)
    write_to_db_finally.

(** [write_to_db] (lines 60-99) *)
Definition write_to_db (path table_name : string) (data : pandas.DataFrame)
  : M unit :=
  logging.debug ("Looking to add data to " +:+ path) ;;;
  add_table path table_name data ;;;
  write_to_db_insert path table_name data.

(** ** The coordinator ([listen_and_write], lines 25-58) *)

(** What [write_queue.get] hands out: a [WriteRequest], or any other
    object, of which only its text form is used. *)
Inductive queue_item : Type :=
| request_item (request : WriteRequest.t)
| other_item (text : string).

(** The surroundings of one run, by loop iteration: what the [k]-th call
    of [stop_signal.is_set()] answers, and what the [k]-th call of
    [write_queue.get(block=True, timeout=timeout_seconds)] gives, [None]
    standing for [queue.Empty] after the timeout. *)
Record Environment : Type := {
  is_set : nat → bool;
  get : nat → option queue_item
}.

Section coordinator.

(** The writer the loop calls; [listen_and_write] below uses [write_to_db]. *)
Variable write : string → string → pandas.DataFrame → M unit.

(** One pass through the loop body (lines 41-57) with the outcome of
    [get]. *)
Definition iteration (got : option queue_item) (write_count : Z) : M Z :=
  match got with
  | None => ret write_count
  | Some (other_item text) =>
      logging.error ("Received an invalid write request: " +:+ text) ;;;
      ret write_count
  | Some (request_item request) =>
      try_except
        (write (WriteRequest.path request) (WriteRequest.table_name request)
               (WriteRequest.data request) ;;;
         ret (write_count + pandas.DataFrame_len (WriteRequest.data request)))
        (fun e =>
           logging.exception "Failed to write to database" e ;;;
           ret write_count)
  end.

(** The [while] loop from its [k]-th iteration on; [None] when [fuel]
    iterations did not reach a set stop signal. *)
Fixpoint loop (fuel : nat) (env : Environment) (k : nat) (write_count : Z)
  : M (option Z) :=
  match fuel with
  | O => ret None
  | S fuel' =>
      if is_set env k then ret (Some write_count)
      else
        write_count' <- iteration (get env k) write_count ;;
        loop fuel' env (S k) write_count'
  end.

Definition listen_and_write_with (fuel : nat) (env : Environment)
  : M (option Z) :=
  loop fuel env 0%nat 0.

(** *** What a run wrote, read off the dequeued items

    These follow the words of the specification of the coordinator: the
    batches written without raising, and the sum of their row counts. *)

(** The world one loop iteration leaves behind. *)
Definition after_iteration (got : option queue_item) (w : World) : World :=
  (iteration got 0 w).2.

(** The batch of this dequeue when it is a [WriteRequest] whose write
    returned; nothing for a timeout, another object, or a write that
    raised. *)
Definition written (got : option queue_item) (w : World)
  : list pandas.DataFrame :=
  match got with
  | Some (request_item request) =>
      match write (WriteRequest.path request) (WriteRequest.table_name request)
                  (WriteRequest.data request) w with
      | (Ok _, _) => [WriteRequest.data request]
      | (Raise _, _) => []
      end
  | _ => []
  end.

Fixpoint written_batches (polls : list (option queue_item)) (w : World)
  : list pandas.DataFrame :=
  match polls with
  | [] => []
  | got :: rest => written got w ++ written_batches rest (after_iteration got w)
  end.

Definition world_after (polls : list (option queue_item)) (w : World) : World :=
  foldl (fun w got => after_iteration got w) w polls.

End coordinator.

(** The sum of the row counts of a list of batches. *)
Definition row_total (batches : list pandas.DataFrame) : Z :=
  foldr Z.add 0 (map pandas.DataFrame_len batches).

(** The outcomes of the [n] calls of [get] from iteration [k] on. *)
Definition polls (env : Environment) (k n : nat) : list (option queue_item) :=
  map (get env) (seq k n).

Definition listen_and_write : nat → Environment → M (option Z) :=
  listen_and_write_with write_to_db.

(** ** Frames and runs used below *)

(** The batch of the end-to-end scenario: one row, keyed by [path]. *)
Definition scenario_frame : pandas.DataFrame :=
  {| pandas.index := pandas.FlatIndex (Some "path") pandas.object_dtype;
     pandas.columns := [("op", pandas.object_dtype)];
     pandas.rows := [([pandas.StrValue "/a"], [pandas.StrValue "create"])] |}.

Definition scenario_request : WriteRequest.t :=
  {| WriteRequest.path := "t.db"; WriteRequest.table_name := "events";
     WriteRequest.data := scenario_frame |}.

(** The request is dequeued by the first [get]; the stop signal is set
    before the second check. *)
Definition scenario_environment : Environment :=
  {| is_set := fun k => bool_decide (1 ≤ k)%nat;
     get := fun k => match k with
                     | O => Some (request_item scenario_request)
                     | S _ => None
                     end |}.

(** A frame without a declared key: the default unnamed index. *)
Definition unkeyed_frame : pandas.DataFrame :=
  {| pandas.index := pandas.FlatIndex None (pandas.integer_dtype true 64);
     pandas.columns := [("path", pandas.object_dtype); ("op", pandas.object_dtype)];
     pandas.rows := [([pandas.IntValue 0],
                      [pandas.StrValue "/a"; pandas.StrValue "create"])] |}.

(** A frame with no row at all. *)
Definition empty_frame : pandas.DataFrame :=
  {| pandas.index := pandas.FlatIndex (Some "path") pandas.object_dtype;
     pandas.columns := [("op", pandas.object_dtype)];
     pandas.rows := [] |}.

(** A frame keyed by two named levels. *)
Definition keyed_frame : pandas.DataFrame :=
  {| pandas.index :=
       pandas.MultiIndex
         {| pandas.level_name := Some "path";
            pandas.level_dtype := pandas.object_dtype |}
         [{| pandas.level_name := Some "ts";
             pandas.level_dtype := pandas.integer_dtype true 64 |}];
     pandas.columns := [("op", pandas.object_dtype)];
     pandas.rows := [([pandas.StrValue "/a"; pandas.IntValue 3],
                      [pandas.StrValue "create"])] |}.

(** A database file in which [events] is a view. *)
Definition world_with_view : World :=
  set_files
    {[ "t.db" :=
         {[ "events" :=
              {| tbl_sql := "CREATE VIEW events AS SELECT 1 AS path";
                 tbl_columns := ["path"]; tbl_primary_key := [];
                 tbl_rows := []; tbl_is_view := true |} ]} ]}
    empty_world.

(** A stand-in for the writer, used only to run the coordinator on a
    failing and on a returning write: it refuses a frame without rows and
    accepts every other frame, storing nothing. *)
Definition selective_write (path table_name : string)
  (data : pandas.DataFrame) : M unit :=
  if bool_decide (pandas.rows data = [])
  then raise (ValueError "no rows")
  else ret tt.

(** A run that dequeues a request with the empty frame, then the request
    of the scenario, and then sees the stop signal. *)
Definition two_request_environment : Environment :=
  {| is_set := fun k => bool_decide (2 ≤ k)%nat;
     get := fun k =>
       match k with
       | O => Some (request_item
                      {| WriteRequest.path := "t.db";
                         WriteRequest.table_name := "events";
                         WriteRequest.data := empty_frame |})
       | S O => Some (request_item scenario_request)
       | S (S _) => None
       end |}.

(** ** Notions used to state what holds past the guards *)

(** Handles are handed out from a counter: none at or above it is open. *)
Definition handles_fresh (w : World) : Prop :=
  ∀ h, (next_handle w ≤ h)%nat → connections w !! h = None.

(** What [connect] sees at a path. *)
Definition content_at (path : string) (w : World) : gmap string Table :=
  default ∅ (files w !! path).





(** The batches of all [WriteRequest]s among dequeued items. *)
Definition requested_batches (items : list (option queue_item))
  : list pandas.DataFrame :=
  flat_map (fun got => match got with
                       | Some (request_item request) =>
                           [WriteRequest.data request]
                       | _ => []
                       end) items.

(** A run whose stop signal is never set and whose queue stays empty. *)
Definition idle_environment : Environment :=
  {| is_set := fun _ => false; get := fun _ => None |}.

(** The table [add_table] creates from a sample, given the column
    definitions it built. *)
Definition created_table (table_name : string) (data : pandas.DataFrame)
  (column_definitions : list string) : Table :=
  let key := map pandas.format_name (pandas.Index_names (pandas.index data)) in
  {| tbl_sql :=
       sqlite3.catalog_sql (table_creation_sql table_name column_definitions);
     tbl_columns := key ++ pandas.DataFrame_columns data;
     tbl_primary_key := key;
     tbl_rows := [];
     tbl_is_view := false |}.

(** Whether the next engine call fails, and the world once it is made. *)
Definition fails (w : World) : bool :=
  bool_decide (head (faults w) = Some true).

Definition spend (w : World) : World := set_faults (tail (faults w)) w.

(** The record [add_table] logs when closing its connection fails. *)
Definition close_failure (e : exn) : LogRecord :=
  {| levelname := "ERROR"; message := "Failed to close database connection";
     exc_info := Some e |}.

(** The records of one call of the writer by the coordinator: the line
    [write_to_db] logs first (line 73), and the line the coordinator logs
    when the write raised (line 57). *)
Definition looking_to_add (path : string) : LogRecord :=
  {| levelname := "DEBUG"; message := "Looking to add data to " +:+ path;
     exc_info := None |}.

Definition write_failure (e : exn) : LogRecord :=
  {| levelname := "ERROR"; message := "Failed to write to database";
     exc_info := Some e |}.

(** A run that dequeues [first], then [second], and then sees the stop
    signal. *)
Definition two_requests (first second : WriteRequest.t) : Environment :=
  {| is_set := fun k => bool_decide (2 ≤ k)%nat;
     get := fun k =>
       match k with
       | O => Some (request_item first)
       | S O => Some (request_item second)
       | S (S _) => None
       end |}.

(** * Properties *)

(** ** Type mapper *)

(** C8: the type mapper is a total function with a fixed table: INTEGER
    for every integer dtype, INTEGER for the boolean dtype, REAL for every
    floating-point dtype, and TEXT for every other dtype (complex,
    datetime, timedelta, string, object).  Being a function into [string],
    it has no raising case. *)
Theorem pandas_dtype_to_sqlite_type_table (dtype : pandas.Dtype) :
  pandas_dtype_to_sqlite_type dtype =
  match dtype with
  | pandas.integer_dtype _ _ => "INTEGER"
  | pandas.bool_dtype => "INTEGER"
  | pandas.float_dtype _ => "REAL"
  | pandas.complex_dtype _ => "TEXT"
  | pandas.datetime64_dtype => "TEXT"
  | pandas.timedelta64_dtype => "TEXT"
  | pandas.string_dtype => "TEXT"
  | pandas.object_dtype => "TEXT"
  end.
Proof. destruct dtype; reflexivity. Qed.

Lemma pandas_dtype_to_sqlite_type_default (dtype : pandas.Dtype) :
  pandas.is_integer_dtype dtype = false →
  pandas.is_bool_dtype dtype = false →
  pandas.is_float_dtype dtype = false →
  pandas_dtype_to_sqlite_type dtype = "TEXT".
Proof.
  intros Hint Hbool Hfloat. unfold pandas_dtype_to_sqlite_type.
  by rewrite Hint, Hbool, Hfloat.
Qed.

(** ** The guards of [add_table] *)

Lemma add_table_data_guard_raises (table_name : string)
  (data : pandas.DataFrame) :
  add_table_data_guard table_name data =
  Raise (ValueError pandas.ambiguous_truth).
Proof. reflexivity. Qed.

Lemma add_table_raises (path table_name : string) (data : pandas.DataFrame)
  (w : World) :
  add_table path table_name data w =
  (Raise (ValueError pandas.ambiguous_truth), w).
Proof. reflexivity. Qed.

Lemma write_to_db_raises (path table_name : string) (data : pandas.DataFrame)
  (w : World) :
  write_to_db path table_name data w =
  (Raise (ValueError pandas.ambiguous_truth),
   (logging.debug ("Looking to add data to " +:+ path) w).2).
Proof. reflexivity. Qed.

(** C4: on the code, the emptiness check of lines 117-118 does not tell
    an empty batch from a non-empty one.  [not data] asks pandas for the
    truth value of the frame, which raises for every frame: the call with
    the one-row frame of the scenario fails exactly as the call with the
    empty frame does, with the error of pandas and not with the message of
    line 118, and the world is left as it was. *)
Theorem add_table_rejects_non_empty_batch (path table_name : string)
  (w : World) :
  add_table path table_name scenario_frame w =
    (Raise (ValueError pandas.ambiguous_truth), w) ∧
  add_table path table_name empty_frame w =
    (Raise (ValueError pandas.ambiguous_truth), w) ∧
  pandas.rows scenario_frame ≠ [] ∧
  ValueError pandas.ambiguous_truth ≠ ValueError (no_data_message table_name).
Proof.
  repeat split; done.
Qed.

(** C5: on the code, the check of lines 120-121 lets every frame through:
    [data.index.names] is a list object and never [None], so the
    conjunction is false also for a frame with the default unnamed index.
    The call with such a frame does fail, but at line 117 and with the
    error of pandas, not with the message of line 121. *)
Theorem add_table_index_guard_never_raises :
  (∀ data : pandas.DataFrame, add_table_index_guard data = Ok tt) ∧
  pandas.Index_names (pandas.index unkeyed_frame) = [None] ∧
  add_table "t.db" "events" unkeyed_frame empty_world =
    (Raise (ValueError pandas.ambiguous_truth), empty_world) ∧
  ValueError pandas.ambiguous_truth ≠ ValueError no_index_message.
Proof.
  repeat split; try done.
  intros data. unfold add_table_index_guard, pandas.FrozenList_is_None.
  by rewrite andb_false_r.
Qed.

(** C6: on the code, two calls of [add_table] with the same table name
    create no table at all: each call raises at line 117 and leaves the
    world, and so the database files, as they were. *)
Theorem add_table_twice_creates_nothing (path table_name : string)
  (first second : pandas.DataFrame) (w : World) :
  let after_first := (add_table path table_name first w).2 in
  let after_second := (add_table path table_name second after_first).2 in
  (add_table path table_name first w).1 = Raise (ValueError pandas.ambiguous_truth) ∧
  (add_table path table_name second after_first).1 =
    Raise (ValueError pandas.ambiguous_truth) ∧
  files after_second = files w.
Proof. done. Qed.

(** C7: on the code, writing a batch twice stores no copy of any row:
    each call of [write_to_db] raises inside [add_table] (line 117) before
    a connection is opened, and the database files stay as they were. *)
Theorem write_to_db_twice_stores_nothing (path table_name : string)
  (data : pandas.DataFrame) (w : World) :
  let after_first := (write_to_db path table_name data w).2 in
  let after_second := (write_to_db path table_name data after_first).2 in
  (write_to_db path table_name data w).1 =
    Raise (ValueError pandas.ambiguous_truth) ∧
  (write_to_db path table_name data after_first).1 =
    Raise (ValueError pandas.ambiguous_truth) ∧
  files after_second = files w ∧
  connections after_second = connections w.
Proof. done. Qed.

(** C1: on the code, the end-to-end scenario returns 0 and creates no
    table: the write of the dequeued request raises (line 117), the
    coordinator logs the failure and goes on, and the stop signal ends the
    run with nothing counted and no database file written. *)
Theorem scenario_returns_zero (fuel : nat) :
  listen_and_write (S (S fuel)) scenario_environment empty_world =
  (Ok (Some 0),
   set_log
     [ {| levelname := "DEBUG"; message := "Looking to add data to t.db";
          exc_info := None |};
       {| levelname := "ERROR"; message := "Failed to write to database";
          exc_info := Some (ValueError pandas.ambiguous_truth) |} ]
     empty_world).
Proof. reflexivity. Qed.


(** The [try] statement of [write_to_db] on its own (lines 89-99), which
    no call reaches as long as line 117 raises: [connection] is first
    assigned inside the [try] (line 90), so when [sqlite3.connect] raises,
    the [finally] block reads an unassigned local and its
    [UnboundLocalError] replaces the error of [sqlite3.connect].
    [add_table], which assigns [None] before its [try] (line 124), passes
    the error of [sqlite3.connect] on. *)
Lemma write_to_db_masks_connect_error (path table_name : string)
  (plan : list bool) (w : World) :
  (write_to_db_insert path table_name keyed_frame
     (set_faults (true :: plan) w)).1 =
    Raise (UnboundLocalError "connection") ∧
  (add_table_locked path table_name keyed_frame
     (set_faults (true :: plan) w)).1 =
    Raise (sqlite3_Error "unable to open database file").
Proof. split; reflexivity. Qed.

(** ** The coordinator, for any writer *)

Lemma row_total_app (xs ys : list pandas.DataFrame) :
  row_total (xs ++ ys) = row_total xs + row_total ys.
Proof.
  unfold row_total. induction xs as [|x xs IH]; simpl; [done|].
  rewrite IH. lia.
Qed.

Section coordinator_facts.

Variable write : string → string → pandas.DataFrame → M unit.

(** One iteration never raises; it adds the rows of the batch it wrote,
    if any. *)
Lemma iteration_spec (got : option queue_item) (c : Z) (w : World) :
  iteration write got c w =
  (Ok (c + row_total (written write got w)), after_iteration write got w).
Proof.
  unfold after_iteration, written, iteration.
  destruct got as [[request|text]|];
    unfold try_except, bind, ret, logging.error, logging.exception,
      logging.emit, row_total; simpl.
  - destruct (write _ _ _ w) as [[[]|e] w1]; simpl;
      by rewrite ?Z.add_0_r.
  - by rewrite Z.add_0_r.
  - by rewrite Z.add_0_r.
Qed.

Lemma written_other (text : string) (w : World) :
  written write (Some (other_item text)) w = [].
Proof. reflexivity. Qed.

Lemma written_timeout (w : World) : written write None w = [].
Proof. reflexivity. Qed.

Lemma written_raise (request : WriteRequest.t) (e : exn) (w w1 : World) :
  write (WriteRequest.path request) (WriteRequest.table_name request)
        (WriteRequest.data request) w = (Raise e, w1) →
  written write (Some (request_item request)) w = [].
Proof. intros H. unfold written. by rewrite H. Qed.

Lemma written_return (request : WriteRequest.t) (w w1 : World) :
  write (WriteRequest.path request) (WriteRequest.table_name request)
        (WriteRequest.data request) w = (Ok tt, w1) →
  written write (Some (request_item request)) w = [WriteRequest.data request].
Proof. intros H. unfold written. by rewrite H. Qed.

(** The loop steps once when the stop signal is not set. *)
Lemma loop_step (fuel : nat) (env : Environment) (k : nat) (c : Z) (w : World) :
  is_set env k = false →
  loop write (S fuel) env k c w =
  loop write fuel env (S k) (c + row_total (written write (get env k) w))
       (after_iteration write (get env k) w).
Proof.
  intros Hrun. simpl. rewrite Hrun. unfold bind at 1.
  by rewrite iteration_spec.
Qed.

(** The loop returns at the first check that sees the stop signal. *)
Lemma loop_stop (fuel : nat) (env : Environment) (k : nat) (c : Z) (w : World) :
  is_set env k = true →
  loop write (S fuel) env k c w = (Ok (Some c), w).
Proof. intros Hstop. simpl. by rewrite Hstop. Qed.

(** With the stop signal first seen at check [k + n], the loop makes [n]
    dequeue attempts and returns the rows of the batches written. *)
Lemma loop_runs (n : nat) :
  ∀ (fuel : nat) (env : Environment) (k : nat) (c : Z) (w : World),
    (∀ j, (j < n)%nat → is_set env (k + j) = false) →
    is_set env (k + n) = true →
    (n < fuel)%nat →
    loop write fuel env k c w =
    (Ok (Some (c + row_total (written_batches write (polls env k n) w))),
     world_after write (polls env k n) w).
Proof.
  induction n as [|n IH]; intros fuel env k c w Hrun Hstop Hfuel.
  - destruct fuel as [|fuel]; [lia|].
    rewrite Nat.add_0_r in Hstop. rewrite loop_stop by done.
    unfold polls, row_total; simpl. by rewrite Z.add_0_r.
  - destruct fuel as [|fuel]; [lia|].
    rewrite loop_step.
    2:{ specialize (Hrun 0%nat). rewrite Nat.add_0_r in Hrun. apply Hrun. lia. }
    rewrite (IH fuel env (S k)).
    + unfold polls; simpl. by rewrite row_total_app, Z.add_assoc.
    + intros j Hj. replace (S k + j)%nat with (k + S j)%nat by lia.
      apply Hrun. lia.
    + by replace (S k + n)%nat with (k + S n)%nat by lia.
    + lia.
Qed.

(** Nothing but a count, or the lack of fuel, comes out of the loop. *)
Lemma loop_never_raises (fuel : nat) :
  ∀ (env : Environment) (k : nat) (c : Z) (w : World),
    ∃ r w', loop write fuel env k c w = (Ok r, w').
Proof.
  induction fuel as [|fuel IH]; intros env k c w.
  - by exists None, w.
  - destruct (is_set env k) eqn:Hk.
    + exists (Some c), w. by apply loop_stop.
    + rewrite loop_step by done. apply IH.
Qed.

End coordinator_facts.

(** C2: clean shutdown with the exact count.  When the stop signal is
    first seen set at check [n], the run returns there (any fuel above [n]
    is enough), having made the [n] dequeue attempts before it and none
    after, and the value returned is the sum of the row counts of the
    batches whose write returned.  An object that is not a [WriteRequest]
    and a batch whose write raised are no part of that sum.  Wall-clock time
    is not represented: the bound of one poll timeout is the bound on the
    single [get] in flight. *)
Theorem clean_shutdown_count
  (write : string → string → pandas.DataFrame → M unit)
  (env : Environment) (n fuel : nat) (w : World) :
  is_set env n = true →
  (∀ k, (k < n)%nat → is_set env k = false) →
  (n < fuel)%nat →
  listen_and_write_with write fuel env w =
    (Ok (Some (row_total (written_batches write (polls env 0 n) w))),
     world_after write (polls env 0 n) w) ∧
  (∀ text w0, written write (Some (other_item text)) w0 = []) ∧
  (∀ request e w0 w1,
     write (WriteRequest.path request) (WriteRequest.table_name request)
           (WriteRequest.data request) w0 = (Raise e, w1) →
     written write (Some (request_item request)) w0 = []) ∧
  (∀ request w0 w1,
     write (WriteRequest.path request) (WriteRequest.table_name request)
           (WriteRequest.data request) w0 = (Ok tt, w1) →
     written write (Some (request_item request)) w0 =
       [WriteRequest.data request]).
Proof.
  intros Hstop Hrun Hfuel. split; [|split; [|split]].
  - unfold listen_and_write_with. by rewrite (loop_runs write n).
  - apply written_other.
  - apply written_raise.
  - apply written_return.
Qed.

Lemma clean_shutdown_count_witness :
  listen_and_write_with write_to_db 2 scenario_environment empty_world =
    (Ok (Some (row_total
                 (written_batches write_to_db
                    (polls scenario_environment 0 1) empty_world))),
     world_after write_to_db (polls scenario_environment 0 1) empty_world) ∧
  (∀ text w0, written write_to_db (Some (other_item text)) w0 = []) ∧
  (∀ request e w0 w1,
     write_to_db (WriteRequest.path request) (WriteRequest.table_name request)
           (WriteRequest.data request) w0 = (Raise e, w1) →
     written write_to_db (Some (request_item request)) w0 = []) ∧
  (∀ request w0 w1,
     write_to_db (WriteRequest.path request) (WriteRequest.table_name request)
           (WriteRequest.data request) w0 = (Ok tt, w1) →
     written write_to_db (Some (request_item request)) w0 =
       [WriteRequest.data request]).
Proof.
  apply (clean_shutdown_count write_to_db scenario_environment 1 2 empty_world).
  - reflexivity.
  - intros k Hk. destruct k as [|k]; [reflexivity | lia].
  - lia.
Defined.

(** The same run shape with a writer that returns on the second request:
    the failed first write is logged, the second batch is counted. *)
Example coordinator_counts_after_failure :
  (listen_and_write_with selective_write 3 two_request_environment
     empty_world).1 = Ok (Some 1) ∧
  written_batches selective_write (polls two_request_environment 0 2)
    empty_world = [scenario_frame].
Proof. split; reflexivity. Qed.

(** C3: on the code, a batch that follows a failed write is neither
    written nor counted.  The run that dequeues two requests and then sees
    the stop signal calls [write_to_db] for each of them (the two lines
    logged at line 73), catches and logs the error of each call (line 57),
    goes on and returns a count, never an exception: this part of fault
    isolation holds.  But the second write raises as the first did, at line
    117 and for every frame, a well-formed one included: no batch is
    written, the database files are as they were, and the count returned is
    0, not the row count of the second batch. *)
Theorem batch_after_failure_is_lost (first second : WriteRequest.t)
  (fuel : nat) (w : World) :
  let env := two_requests first second in
  let run := listen_and_write (S (S (S fuel))) env w in
  run.1 = Ok (Some 0) ∧
  log run.2 =
    log w ++
    [looking_to_add (WriteRequest.path first);
     write_failure (ValueError pandas.ambiguous_truth);
     looking_to_add (WriteRequest.path second);
     write_failure (ValueError pandas.ambiguous_truth)] ∧
  written_batches write_to_db (polls env 0 2) w = [] ∧
  files run.2 = files w ∧
  connections run.2 = connections w ∧
  (0 < pandas.DataFrame_len (WriteRequest.data second) →
   run.1 ≠ Ok (Some (pandas.DataFrame_len (WriteRequest.data second)))).
Proof.
  intros env run. repeat split.
  - transitivity
      ((((log w ++ [looking_to_add (WriteRequest.path first)]) ++
         [write_failure (ValueError pandas.ambiguous_truth)]) ++
        [looking_to_add (WriteRequest.path second)]) ++
       [write_failure (ValueError pandas.ambiguous_truth)]);
      [reflexivity | by rewrite <- !app_assoc].
  - intros Hrows Hrun.
    assert (Hzero : run.1 = Ok (Some 0)) by reflexivity.
    rewrite Hzero in Hrun. injection Hrun as Hcount. lia.
Qed.

(** ** The statements [add_table] builds *)

Lemma string_app_assoc (a b c : string) : (a +:+ b) +:+ c = a +:+ b +:+ c.
Proof.
  induction a as [|x a IH]; [reflexivity|].
  change (String x ((a +:+ b) +:+ c) = String x (a +:+ b +:+ c)).
  by rewrite IH.
Qed.

(** Joining with one more part at the end. *)
Lemma join_snoc (sep : string) (parts : list string) (last_part : string) :
  parts ≠ [] →
  Str.join sep (parts ++ [last_part]) =
  Str.join sep parts +:+ sep +:+ last_part.
Proof.
  induction parts as [|p [|q rest] IH]; intros Hne; [done | done |].
  change (Str.join sep ((p :: q :: rest) ++ [last_part]))
    with (p +:+ sep +:+ Str.join sep ((q :: rest) ++ [last_part])).
  rewrite IH by done.
  change (Str.join sep (p :: q :: rest))
    with (p +:+ sep +:+ Str.join sep (q :: rest)).
  by rewrite !string_app_assoc.
Qed.

Lemma result_bind_Ok {A B : Type} (f : A → result B) (r : result A) (b : B) :
  (a ← r; f a) = Ok b → ∃ a, r = Ok a ∧ f a = Ok b.
Proof. destruct r as [a|e]; [by exists a | done]. Qed.

Lemma mapM_result_length {A B : Type} (f : A → result B) (l : list A) :
  ∀ k, mapM f l = Ok k → length k = length l.
Proof.
  induction l as [|x l IH]; intros k H.
  - by injection H as <-.
  - cbn [mapM] in H.
    apply result_bind_Ok in H as (y & _ & H).
    apply result_bind_Ok in H as (k' & Hk' & H).
    injection H as <-. simpl. f_equal. by apply IH.
Qed.

(** When [str.join] accepts the names, each of them is a [str]. *)
Lemma all_str_Some (names : list (option string)) :
  ∀ i parts, all_str i names = Ok parts → names = map Some parts.
Proof.
  induction names as [|[s|] names IH]; intros i parts H.
  - by injection H as <-.
  - cbn [all_str] in H.
    apply result_bind_Ok in H as (rest & Hrest & H).
    injection H as <-. simpl. f_equal. by apply (IH (S i)).
  - done.
Qed.

(** An index has at least one level, so its list of names is truthy. *)
Lemma Index_names_truthy (frame : pandas.DataFrame) :
  pandas.FrozenList_bool (pandas.Index_names (pandas.index frame)) = true.
Proof. by destruct (pandas.index frame). Qed.

(** C10: the names of an index are never an empty list, so the test of
    lines 132 and 147 is true for every frame and the inline branch of
    lines 137-139 is never taken; whenever the column definitions are built,
    every index name is a [str] and the definitions end with the clause
    [PRIMARY KEY (<index names>)], which the [CREATE] statement carries
    as its last entry. *)
Theorem add_table_declares_key_in_trailing_clause
  (data : pandas.DataFrame) (table_name : string)
  (column_definitions : list string) :
  add_table_column_definitions data = Ok column_definitions →
  (∀ frame : pandas.DataFrame,
     pandas.FrozenList_bool (pandas.Index_names (pandas.index frame)) = true) ∧
  ∃ (names index_definitions other_definitions : list string),
    pandas.Index_names (pandas.index data) = map Some names ∧
    names ≠ [] ∧
    length index_definitions = length names ∧
    length other_definitions = length (pandas.columns data) ∧
    column_definitions =
      index_definitions ++ other_definitions ++
      ["PRIMARY KEY (" +:+ Str.join ", " names +:+ ")"] ∧
    table_creation_sql table_name column_definitions =
      "CREATE TABLE IF NOT EXISTS " +:+ table_name +:+ " (" +:+ Str.LF +:+
      "    " +:+
      Str.join ("," +:+ Str.linesep +:+ "    ")
        (index_definitions ++ other_definitions) +:+
      ("," +:+ Str.linesep +:+ "    ") +:+
      ("PRIMARY KEY (" +:+ Str.join ", " names +:+ ")") +:+ Str.LF +:+ ")".
Proof.
  intros H. split; [apply Index_names_truthy|].
  unfold add_table_column_definitions in H.
  rewrite Index_names_truthy in H.
  apply result_bind_Ok in H as (index_definitions & Hindex & H).
  apply result_bind_Ok in H as (other_definitions & Hother & H).
  apply result_bind_Ok in H as (key_clause & Hkey & H).
  apply result_bind_Ok in Hkey as (joined & Hjoined & Hkey).
  unfold join_names in Hjoined.
  apply result_bind_Ok in Hjoined as (names & Hnames & Hjoined).
  injection Hjoined as <-. injection Hkey as <-. injection H as <-.
  apply all_str_Some in Hnames.
  apply mapM_result_length in Hindex, Hother.
  exists names, index_definitions, other_definitions.
  assert (Hlen : length index_definitions = length names).
  { by rewrite Hindex, Hnames, length_map. }
  assert (Hne : names ≠ []).
  { intros ->. pose proof (Index_names_truthy data) as Ht.
    by rewrite Hnames in Ht. }
  repeat split; try done.
  - rewrite Hother. unfold pandas.DataFrame_columns. by rewrite length_map.
  - unfold table_creation_sql.
    rewrite (app_assoc index_definitions). rewrite join_snoc.
    + by rewrite !string_app_assoc.
    + intros Happ. apply app_eq_nil in Happ as [-> _].
      destruct names; [done | discriminate Hlen].
Qed.

Lemma add_table_declares_key_in_trailing_clause_witness :
  (∀ frame : pandas.DataFrame,
     pandas.FrozenList_bool (pandas.Index_names (pandas.index frame)) = true) ∧
  ∃ (names index_definitions other_definitions : list string),
    pandas.Index_names (pandas.index keyed_frame) = map Some names ∧
    names ≠ [] ∧
    length index_definitions = length names ∧
    length other_definitions = length (pandas.columns keyed_frame) ∧
    [Str.dquote +:+ "path" +:+ Str.dquote +:+ " TEXT";
     Str.dquote +:+ "ts" +:+ Str.dquote +:+ " INTEGER";
     Str.dquote +:+ "op" +:+ Str.dquote +:+ " TEXT";
     "PRIMARY KEY (path, ts)"] =
      index_definitions ++ other_definitions ++
      ["PRIMARY KEY (" +:+ Str.join ", " names +:+ ")"] ∧
    table_creation_sql "events"
      [Str.dquote +:+ "path" +:+ Str.dquote +:+ " TEXT";
       Str.dquote +:+ "ts" +:+ Str.dquote +:+ " INTEGER";
       Str.dquote +:+ "op" +:+ Str.dquote +:+ " TEXT";
       "PRIMARY KEY (path, ts)"] =
      "CREATE TABLE IF NOT EXISTS " +:+ "events" +:+ " (" +:+ Str.LF +:+
      "    " +:+
      Str.join ("," +:+ Str.linesep +:+ "    ")
        (index_definitions ++ other_definitions) +:+
      ("," +:+ Str.linesep +:+ "    ") +:+
      ("PRIMARY KEY (" +:+ Str.join ", " names +:+ ")") +:+ Str.LF +:+ ")".
Proof.
  exact (add_table_declares_key_in_trailing_clause keyed_frame "events" _
           eq_refl).
Defined.

(** ** The [finally] blocks *)

Ltac run_engine :=
  repeat progress unfold sqlite3.connect, sqlite3.commit, sqlite3.close, sqlite3.store,
    sqlite3.select_table_name, sqlite3.execute_create_table,
    sqlite3.executemany_insert_or_ignore, sqlite3.set_view, sqlite3.view,
    sqlite3.engine_call, sqlite3.next_fault, table_exists,
    logging.exception, logging.emit, read_local, try_except, lift, bind, ret,
    raise.

Lemma add_table_finally_returns (connection : option sqlite3.Connection)
  (w : World) :
  ∃ w', add_table_finally (Bound connection) w = (Ok tt, w').
Proof.
  unfold add_table_finally. run_engine.
  destruct connection as [handle|]; [|by eexists].
  destruct (faults w) as [|[] plan]; by eexists.
Qed.

(** The [finally] block of [add_table] never changes the outcome: the body
    returns or raises exactly what opening the connection and creating the
    table return or raise, whatever closing the connection does. *)
Lemma add_table_locked_outcome (path table_name : string)
  (data : pandas.DataFrame) (w : World) :
  (add_table_locked path table_name data w).1 =
  ((connection <- sqlite3.connect path ;;
    add_table_create connection table_name data) w).1.
Proof.
  unfold add_table_locked, try_finally, bind at 1.
  destruct (sqlite3.connect path w) as [[handle|e] w1].
  - destruct (add_table_create handle table_name data w1) as [r w2].
    by destruct (add_table_finally_returns (Some handle) w2) as [w3 ->].
  - by destruct (add_table_finally_returns None w1) as [w3 ->].
Qed.

Lemma add_table_locked_releases (path table_name : string)
  (data : pandas.DataFrame) (w w1 w2 : World) (handle : sqlite3.Connection)
  (r : result unit) :
  sqlite3.connect path w = (Ok handle, w1) →
  add_table_create handle table_name data w1 = (r, w2) →
  head (faults w2) ≠ Some true →
  (add_table_locked path table_name data w).1 = r ∧
  connections (add_table_locked path table_name data w).2 !! handle = None.
Proof.
  intros Hconnect Hcreate Hclose.
  unfold add_table_locked, try_finally. rewrite Hconnect, Hcreate.
  unfold add_table_finally. run_engine.
  destruct (faults w2) as [|[] plan]; simpl; [|done|];
    split; try done; apply lookup_delete_eq.
Qed.

Lemma write_to_db_finally_returns (connection : sqlite3.Connection)
  (w : World) :
  ∃ w', write_to_db_finally (Bound connection) w = (Ok tt, w').
Proof.
  unfold write_to_db_finally. run_engine.
  destruct (faults w) as [|[] plan]; by eexists.
Qed.

Section write_to_db_try.

Variables (path table_name sql : string) (data : pandas.DataFrame)
  (rows : list (list pandas.value)).

Let column_names : list (option string) :=
  pandas.Index_names (pandas.index data) ++
  map Some (pandas.DataFrame_columns data).

Hypothesis Hsql : insert_sql table_name column_names = Ok sql.
Hypothesis Hrows : pandas.reset_index_values data = Ok rows.

(** Once the connection is open, the [finally] block of [write_to_db]
    keeps the outcome of the statements before it. *)
Lemma write_to_db_insert_outcome (w w1 : World) (handle : sqlite3.Connection) :
  sqlite3.connect path w = (Ok handle, w1) →
  (write_to_db_insert path table_name data w).1 =
  (write_to_db_execute handle sql table_name column_names rows w1).1.
Proof.
  intros Hconnect. unfold write_to_db_insert. fold column_names.
  unfold lift, bind at 1. rewrite Hsql. unfold bind at 1. rewrite Hrows.
  unfold try_finally. rewrite Hconnect.
  destruct (write_to_db_execute _ _ _ _ _ w1) as [r w2]. unfold id.
  by destruct (write_to_db_finally_returns handle w2) as [w3 ->].
Qed.

(** When [connect] raises, what leaves [write_to_db] is the
    [UnboundLocalError] of the [finally] block. *)
Lemma write_to_db_insert_connect_raises (w w1 : World) (e : exn) :
  sqlite3.connect path w = (Raise e, w1) →
  write_to_db_insert path table_name data w =
  (Raise (UnboundLocalError "connection"), w1).
Proof.
  intros Hconnect. unfold write_to_db_insert. fold column_names.
  unfold lift, bind at 1. rewrite Hsql. unfold bind at 1. rewrite Hrows.
  unfold try_finally. by rewrite Hconnect.
Qed.

End write_to_db_try.

(** ** More on the coordinator *)

Section coordinator_bounds.

Variable write : string → string → pandas.DataFrame → M unit.

(** The rows of every [WriteRequest] among the dequeued items, written or
    not. *)
Lemma written_le_requested (got : option queue_item) (w : World) :
  0 ≤ row_total (written write got w) ≤ row_total (requested_batches [got]).
Proof.
  unfold written, requested_batches, row_total, pandas.DataFrame_len.
  destruct got as [[request|text]|]; simpl; [|lia|lia].
  destruct (write _ _ _ w) as [[[]|e] w1]; simpl; lia.
Qed.

Lemma written_batches_le_requested (items : list (option queue_item)) :
  ∀ w, 0 ≤ row_total (written_batches write items w)
         ≤ row_total (requested_batches items).
Proof.
  induction items as [|got items IH]; intros w.
  - unfold row_total; simpl; lia.
  - replace (requested_batches (got :: items))
      with (requested_batches [got] ++ requested_batches items)
      by (unfold requested_batches; simpl; by rewrite app_nil_r).
    cbn [written_batches]. rewrite !row_total_app.
    pose proof (written_le_requested got w).
    pose proof (IH (after_iteration write got w)). lia.
Qed.

End coordinator_bounds.

(** The count a run returns lies between 0 and the number of rows of all
    the requests it dequeued. *)
Theorem listen_and_write_count_bounds
  (write : string → string → pandas.DataFrame → M unit)
  (env : Environment) (n fuel : nat) (w : World) :
  is_set env n = true →
  (∀ k, (k < n)%nat → is_set env k = false) →
  (n < fuel)%nat →
  ∃ count w',
    listen_and_write_with write fuel env w = (Ok (Some count), w') ∧
    0 ≤ count ≤ row_total (requested_batches (polls env 0 n)).
Proof.
  intros Hstop Hrun Hfuel. eexists _, _. split.
  - unfold listen_and_write_with. by rewrite (loop_runs write n).
  - rewrite Z.add_0_l. apply written_batches_le_requested.
Qed.

Lemma listen_and_write_count_bounds_witness :
  ∃ count w',
    listen_and_write_with selective_write 3 two_request_environment
      empty_world = (Ok (Some count), w') ∧
    0 ≤ count ≤ row_total (requested_batches (polls two_request_environment 0 2)).
Proof.
  apply (listen_and_write_count_bounds selective_write two_request_environment
           2 3 empty_world).
  - reflexivity.
  - intros k Hk. destruct k as [|[|k]]; [reflexivity | reflexivity | lia].
  - lia.
Defined.

Lemma loop_without_stop
  (write : string → string → pandas.DataFrame → M unit) (env : Environment)
  (fuel : nat) :
  (∀ k, is_set env k = false) →
  ∀ k c w, ∃ w', loop write fuel env k c w = (Ok None, w').
Proof.
  intros Hrun. induction fuel as [|fuel IH]; intros k c w.
  - by exists w.
  - rewrite loop_step by apply Hrun. apply IH.
Qed.

(** The stop signal is the only way out of the loop: while it is never
    seen set, no number of iterations makes the run return, whatever the
    queue hands out and whatever the writer does. *)
Theorem listen_and_write_needs_stop_signal
  (write : string → string → pandas.DataFrame → M unit)
  (env : Environment) (fuel : nat) (w : World) :
  (∀ k, is_set env k = false) →
  ∃ w', listen_and_write_with write fuel env w = (Ok None, w').
Proof. intros Hrun. by apply loop_without_stop. Qed.

Lemma listen_and_write_needs_stop_signal_witness :
  ∃ w', listen_and_write_with write_to_db 5 idle_environment empty_world =
        (Ok None, w').
Proof.
  apply (listen_and_write_needs_stop_signal write_to_db idle_environment 5
           empty_world).
  intros k. reflexivity.
Defined.

(** ** The coordinator with [write_to_db] *)

Lemma iteration_write_to_db (got : option queue_item) (w : World) :
  written write_to_db got w = [] ∧
  files (after_iteration write_to_db got w) = files w ∧
  connections (after_iteration write_to_db got w) = connections w.
Proof. by destruct got as [[request|text]|]. Qed.

Lemma loop_write_to_db (fuel : nat) (env : Environment) :
  ∀ k c w,
    ((loop write_to_db fuel env k c w).1 = Ok None ∨
     (loop write_to_db fuel env k c w).1 = Ok (Some c)) ∧
    files (loop write_to_db fuel env k c w).2 = files w ∧
    connections (loop write_to_db fuel env k c w).2 = connections w.
Proof.
  induction fuel as [|fuel IH]; intros k c w.
  - by repeat split; [left|..].
  - destruct (is_set env k) eqn:Hk.
    + rewrite loop_stop by done. by repeat split; [right|..].
    + rewrite loop_step by done.
      destruct (iteration_write_to_db (get env k) w) as (-> & Hf & Hc).
      rewrite Z.add_0_r.
      destruct (IH (S k) c (after_iteration write_to_db (get env k) w))
        as (Hr & Hf' & Hc').
      repeat split; [done | congruence | congruence].
Qed.

(** As written, the coordinator stores nothing: whatever is dequeued and
    however long it runs, a run of [listen_and_write] leaves every database
    file as it was, leaves no connection open, and the only count it can
    return is 0. *)
Theorem listen_and_write_stores_nothing (fuel : nat) (env : Environment)
  (w : World) :
  ((listen_and_write fuel env w).1 = Ok None ∨
   (listen_and_write fuel env w).1 = Ok (Some 0)) ∧
  files (listen_and_write fuel env w).2 = files w ∧
  connections (listen_and_write fuel env w).2 = connections w.
Proof. apply loop_write_to_db. Qed.

(** ** Names in the catalog *)

Lemma find_table_empty (name : string) : sqlite3.find_table ∅ name = None.
Proof. unfold sqlite3.find_table. by rewrite map_to_list_empty. Qed.

(** What a name resolves to is in the catalog under a spelling of that
    name. *)
Lemma find_table_Some (content : gmap string Table) (name found : string)
  (table : Table) :
  sqlite3.find_table content name = Some (found, table) →
  content !! found = Some table ∧ sqlite3.same_name found name.
Proof.
  unfold sqlite3.find_table. intros H.
  destruct (list_find _ _) as [[i [k t]]|] eqn:Hfind; [|done].
  injection H as -> ->.
  apply list_find_Some in Hfind as (Hi & Hsame & _).
  split; [|done].
  apply (elem_of_map_to_list content found table).
  by eapply list_elem_of_lookup_2.
Qed.

(** A name that resolves to nothing has no spelling in the catalog. *)
Lemma find_table_None (content : gmap string Table) (name : string) :
  sqlite3.find_table content name = None →
  ∀ other, sqlite3.same_name other name → content !! other = None.
Proof.
  unfold sqlite3.find_table. intros H other Hsame.
  destruct (list_find _ _) as [[i [k t]]|] eqn:Hfind; [done|].
  apply list_find_None in Hfind. rewrite Forall_forall in Hfind.
  destruct (content !! other) as [table|] eqn:Hother; [|done].
  apply elem_of_map_to_list in Hother.
  by destruct (Hfind _ Hother).
Qed.

Lemma find_table_None_exact (content : gmap string Table) (name : string) :
  sqlite3.find_table content name = None → content !! name = None.
Proof. intros H. by apply (find_table_None content name). Qed.




(** Committing what was read from a file that holds a table leaves the
    file as it is. *)
Lemma store_same (stored : gmap string (gmap string Table)) (path name : string)
  (found : string * Table) :
  sqlite3.find_table (default ∅ (stored !! path)) name = Some found →
  <[path := default ∅ (stored !! path)]> stored = stored.
Proof.
  destruct (stored !! path) as [content|] eqn:Hpath; cbn.
  - intros _. by apply insert_id.
  - by rewrite find_table_empty.
Qed.

(** ** Insert-or-ignore *)





(** ** What [add_table] does to the files, whatever fails *)

Lemma engine_call_eq (failure : string) (w : World) :
  sqlite3.engine_call failure w =
  (if fails w then Raise (sqlite3_Error failure) else Ok tt, spend w).
Proof. by destruct w as [f c n [|[] plan] l]. Qed.

Ltac engine_unfold :=
  repeat progress unfold sqlite3.connect, sqlite3.commit, sqlite3.close,
    sqlite3.store, sqlite3.select_table_name, sqlite3.execute_create_table,
    sqlite3.executemany_insert_or_ignore, sqlite3.set_view, sqlite3.view,
    table_exists, logging.exception, logging.emit, read_local, try_except,
    lift, bind, ret, raise.

(** Case analysis along a run of engine calls: each call fails or not, each
    lookup finds something or not, each test passes or not, each pure step
    returns or raises. *)
Ltac engine_cases :=
  repeat (match goal with
          | |- context [sqlite3.engine_call _ _] => rewrite engine_call_eq
          | |- context [<[?h:=_]> _ !! ?h] => rewrite lookup_insert_eq
          | |- context [sqlite3.find_table ∅ _] => rewrite find_table_empty
          | |- context [∅ !! _] => rewrite lookup_empty
          | |- context [fails ?x] => destruct (fails x) eqn:?
          | |- context [sqlite3.private_database ?p] =>
              destruct (sqlite3.private_database p) eqn:?
          | |- context [default ∅ (?f !! ?p) !! ?t] =>
              destruct (default ∅ (f !! p) !! t) eqn:?
          | |- context [add_table_column_definitions ?d] =>
              destruct (add_table_column_definitions d) eqn:?
          | |- context [insert_sql ?t ?c] => destruct (insert_sql t c) eqn:?
          | |- context [pandas.reset_index_values ?d] =>
              destruct (pandas.reset_index_values d) eqn:?
          | |- context [sqlite3.create_accepted ?t ?c ?k] =>
              destruct (sqlite3.create_accepted t c k) eqn:?
          | |- context [sqlite3.insert_accepted ?t ?c] =>
              destruct (sqlite3.insert_accepted t c) eqn:?
          | |- context [sqlite3.reserved_for_engine ?t] =>
              destruct (sqlite3.reserved_for_engine t) eqn:?
          | |- context [sqlite3.find_table ?c ?t] =>
              destruct (sqlite3.find_table c t) as [[? ?]|] eqn:?
          | |- context [sqlite3.has_columns ?t ?c] =>
              destruct (sqlite3.has_columns t c) eqn:?
          | |- context [tbl_is_view ?t] => destruct (tbl_is_view t) eqn:?
          | |- context [sqlite3.insert_all ?c ?t ?r] =>
              destruct (sqlite3.insert_all c t r) eqn:?
          | |- context [bool_decide ?P] => destruct (bool_decide P) eqn:?
          | |- context [sqlite3.too_many_columns ?c] =>
              destruct (sqlite3.too_many_columns c) eqn:?
          end; cbn).

(** The ways a call of the body of [add_table] can end: the files are as
    they were, and then a normal return means that the catalog query found
    the table, or that the statement was built and the engine found a table
    or a view under some spelling or the database is the connection's own;
    or the name was missing in every spelling and the table is now in the
    file. *)
Lemma add_table_locked_cases (path table_name : string)
  (data : pandas.DataFrame) (w : World) :
  match add_table_locked path table_name data w with
  | (r, w') =>
      (files w' = files w ∧
       (r = Ok tt →
        (sqlite3.private_database path = false ∧
         ∃ table, content_at path w !! table_name = Some table ∧
                  tbl_is_view table = false) ∨
        ((∃ column_definitions,
            add_table_column_definitions data = Ok column_definitions) ∧
         (sqlite3.private_database path = true ∨
          is_Some (sqlite3.find_table (content_at path w) table_name))))) ∨
      (sqlite3.private_database path = false ∧
       sqlite3.find_table (content_at path w) table_name = None ∧
       ∃ column_definitions,
         add_table_column_definitions data = Ok column_definitions ∧
         files w' =
           <[path := <[table_name :=
                         created_table table_name data column_definitions]>
                       (content_at path w)]> (files w))
  end.
Proof.
  unfold content_at, add_table_locked, add_table_create, add_table_finally,
    try_finally, created_table.
  engine_unfold. engine_cases.
  all: try congruence.
  all: try (left; split; [reflexivity | discriminate]).
  all: try (left; split; [reflexivity|]; intros _; left;
            split; [reflexivity|]; eexists; split; [reflexivity | assumption]).
  all: try (left; split; [reflexivity|]; intros _; right;
            split; [by eexists | first [by left | by right; eauto]]).
  all: try (right; split; [reflexivity|]; split; [reflexivity|];
            eexists; split; [reflexivity|]; by rewrite ?insert_insert_eq).
  all: left; split; [by eapply store_same|]; intros _; right;
    split; [by eexists | by right].
Qed.

(** The record of a failed [close] in [add_table]. *)
Lemma add_table_locked_connections (path table_name : string)
  (data : pandas.DataFrame) (w : World) :
  handles_fresh w →
  match add_table_locked path table_name data w with
  | (r, w') =>
      (connections w' = connections w ∧ log w' = log w) ∨
      (∃ e, log w' = log w ++ [close_failure e])
  end.
Proof.
  intros Hfresh. pose proof (Hfresh (next_handle w) (le_n _)) as Hnone.
  unfold add_table_locked, add_table_create, add_table_finally,
    try_finally, close_failure.
  engine_unfold. engine_cases.
  all: try congruence.
  all: try (left; split; [|reflexivity];
            by rewrite ?insert_insert_eq, ?delete_insert_eq, ?delete_id).
  all: try (right; by eexists).
Qed.

(** Whatever fails on the way, the body of [add_table] leaves every other
    database file alone and keeps every table that is in the file, the one
    called [table_name] included, exactly as it is. *)
Theorem add_table_keeps_existing_tables (path table_name : string)
  (data : pandas.DataFrame) (w : World) :
  let w' := (add_table_locked path table_name data w).2 in
  (∀ other, other ≠ path → files w' !! other = files w !! other) ∧
  (∀ name table,
     content_at path w !! name = Some table →
     content_at path w' !! name = Some table).
Proof.
  pose proof (add_table_locked_cases path table_name data w) as H.
  destruct (add_table_locked path table_name data w) as [r w']. cbn.
  destruct H as [[Hfiles _]|(_ & Habsent & defs & _ & Hfiles)].
  - unfold content_at. by rewrite Hfiles.
  - apply find_table_None_exact in Habsent. split.
    + intros other Hother. by rewrite Hfiles, lookup_insert_ne.
    + intros name table Hname. unfold content_at at 1.
      rewrite Hfiles, lookup_insert_eq. cbn.
      rewrite lookup_insert_ne; [done|]. intros ->. congruence.
Qed.

(** When the body of [add_table] returns normally for a table name that
    is an identifier and a path that names a file, the file holds an entry
    of that name, in the spelling asked for or in another one: the table the
    call found or created, or what the engine found under that name.  The
    entry is a table, unless the file held a view of that name before.  This
    also holds when closing the connection failed. *)
Theorem add_table_returns_with_table (path table_name : string)
  (data : pandas.DataFrame) (w : World) :
  sqlite3.names_a_file path = true →
  sqlite3.is_identifier table_name = true →
  (add_table_locked path table_name data w).1 = Ok tt →
  ∃ name entry,
    sqlite3.same_name name table_name ∧
    content_at path (add_table_locked path table_name data w).2 !! name
      = Some entry ∧
    (tbl_is_view entry = true → content_at path w !! name = Some entry).
Proof.
  intros Hfile _.
  assert (Hprivate : sqlite3.private_database path = false).
  { unfold sqlite3.names_a_file in Hfile.
    apply andb_true_iff in Hfile as [Hfile _]. by apply negb_true_iff. }
  pose proof (add_table_locked_cases path table_name data w) as H.
  destruct (add_table_locked path table_name data w) as [r w']. cbn.
  intros Hr. destruct H as [[Hfiles Hthere]|(_ & _ & defs & _ & Hfiles)].
  - unfold content_at in *. rewrite Hfiles.
    destruct (Hthere Hr)
      as [[_ (table & Hexact & _)]|[_ [Hp|[[name table] Hfound]]]].
    + by exists table_name, table.
    + congruence.
    + apply find_table_Some in Hfound as [Hname Hsame].
      by exists name, table.
  - exists table_name, (created_table table_name data defs).
    split; [done|]. split; [|done]. unfold content_at at 1.
    rewrite Hfiles, lookup_insert_eq. cbn. by rewrite lookup_insert_eq.
Qed.

Lemma add_table_returns_with_table_witness :
  ∃ name entry,
    sqlite3.same_name name "events" ∧
    content_at "t.db"
      (add_table_locked "t.db" "events" keyed_frame empty_world).2 !! name
      = Some entry ∧
    (tbl_is_view entry = true →
     content_at "t.db" empty_world !! name = Some entry).
Proof.
  apply (add_table_returns_with_table "t.db" "events" keyed_frame empty_world);
    reflexivity.
Defined.

(** The body of [add_table] leaves no connection behind and logs nothing,
    except when closing the connection fails: then that failure, and only
    that, is logged. *)
Theorem add_table_closes_or_logs (path table_name : string)
  (data : pandas.DataFrame) (w : World) :
  handles_fresh w →
  let w' := (add_table_locked path table_name data w).2 in
  (connections w' = connections w ∧ log w' = log w) ∨
  (∃ e, log w' = log w ++ [close_failure e]).
Proof.
  intros Hfresh.
  pose proof (add_table_locked_connections path table_name data w Hfresh) as H.
  by destruct (add_table_locked path table_name data w) as [r w'].
Qed.

Lemma add_table_closes_or_logs_witness :
  let w' := (add_table_locked "t.db" "events" keyed_frame empty_world).2 in
  (connections w' = connections empty_world ∧ log w' = log empty_world) ∨
  (∃ e, log w' = log empty_world ++ [close_failure e]).
Proof.
  apply (add_table_closes_or_logs "t.db" "events" keyed_frame empty_world).
  intros h Hh. reflexivity.
Defined.

(** ** What [write_to_db] does to the files, whatever fails *)

(** The ways a call of [write_to_db] past [add_table] can end: it did not
    return normally and the files are as they were; or it returned, the
    statement was accepted, the table name resolved to a table, not a view,
    that has the columns of the batch, and the file holds that table with
    the batch inserted. *)
Lemma write_to_db_insert_cases (path table_name : string)
  (data : pandas.DataFrame) (w : World) :
  let column_names :=
    map pandas.format_name
      (pandas.Index_names (pandas.index data) ++
       map Some (pandas.DataFrame_columns data)) in
  match write_to_db_insert path table_name data w with
  | (r, w') =>
      (files w' = files w ∧ r ≠ Ok tt) ∨
      (r = Ok tt ∧
       sqlite3.private_database path = false ∧
       sqlite3.insert_accepted table_name column_names = true ∧
       (∃ sql,
          insert_sql table_name
            (pandas.Index_names (pandas.index data) ++
             map Some (pandas.DataFrame_columns data)) = Ok sql) ∧
       ∃ name table later rows,
         sqlite3.find_table (content_at path w) table_name
           = Some (name, table) ∧
         tbl_is_view table = false ∧
         sqlite3.has_columns table column_names = true ∧
         pandas.reset_index_values data = Ok rows ∧
         sqlite3.insert_all column_names table rows = Ok later ∧
         files w' =
           <[path := <[name := later]> (content_at path w)]> (files w))
  end.
Proof.
  unfold content_at, write_to_db_insert, write_to_db_execute,
    write_to_db_finally, try_finally.
  engine_unfold. engine_cases.
  all: try congruence.
  all: try (left; split; [reflexivity | discriminate]).
  all: try (right; split; [reflexivity|]; split; [reflexivity|];
            split; [reflexivity|]; split; [by eexists|]; eexists _, _, _, _;
            repeat split; try reflexivity; eassumption).
Qed.

(** A call of [write_to_db] past [add_table] is all or nothing: either it
    returns normally, or the database files are exactly as before, also
    when the failure comes late (a row that does not fit, a failed commit). *)
Theorem write_to_db_insert_all_or_nothing (path table_name : string)
  (data : pandas.DataFrame) (w : World) :
  (write_to_db_insert path table_name data w).1 = Ok tt ∨
  files (write_to_db_insert path table_name data w).2 = files w.
Proof.
  pose proof (write_to_db_insert_cases path table_name data w) as H.
  destruct (write_to_db_insert path table_name data w) as [r w']. cbn in *.
  destruct H as [[Hfiles _]|[Hr _]]; [by right | by left].
Qed.

(** [write_to_db] past [add_table] never creates a table: when the file
    holds no table of that name in any spelling (a view is no table), and
    the name holds no double quote, the call does not return normally and
    the files stay as they are. *)
Theorem write_to_db_insert_needs_table (path table_name : string)
  (data : pandas.DataFrame) (w : World) :
  sqlite3.quotable table_name = true →
  (∀ name entry,
     sqlite3.same_name name table_name →
     content_at path w !! name = Some entry → tbl_is_view entry = true) →
  (write_to_db_insert path table_name data w).1 ≠ Ok tt ∧
  files (write_to_db_insert path table_name data w).2 = files w.
Proof.
  intros _ Habsent.
  pose proof (write_to_db_insert_cases path table_name data w) as H.
  destruct (write_to_db_insert path table_name data w) as [r w']. cbn in *.
  destruct H as [[Hfiles Hr]|
    (_ & _ & _ & _ & name & table & later & rows & Hfound & Htable & _)];
    [done|].
  apply find_table_Some in Hfound as [Hname Hsame].
  by rewrite (Habsent name table Hsame Hname) in Htable.
Qed.

Lemma write_to_db_insert_needs_table_witness :
  (write_to_db_insert "t.db" "events" keyed_frame empty_world).1 ≠ Ok tt ∧
  files (write_to_db_insert "t.db" "events" keyed_frame empty_world).2 =
  files empty_world.
Proof.
  apply (write_to_db_insert_needs_table "t.db" "events" keyed_frame
           empty_world); [reflexivity|].
  intros name entry Hname Hentry. discriminate Hentry.
Defined.


(** ** Runs the engine does not disturb *)

(** A call of the body of [add_table] keeps handles fresh, and plans no
    failure when none was planned. *)
Lemma add_table_locked_calm (path table_name : string)
  (data : pandas.DataFrame) (w : World) :
  handles_fresh w →
  faults w = [] →
  handles_fresh (add_table_locked path table_name data w).2 ∧
  faults (add_table_locked path table_name data w).2 = [].
Proof.
  intros Hfresh Hfaults.
  unfold handles_fresh, add_table_locked, add_table_create, add_table_finally,
    try_finally.
  engine_unfold. engine_cases.
  all: try congruence.
  all: (split; [|by rewrite Hfaults]); intros h Hh;
    rewrite ?lookup_delete_ne, ?lookup_insert_ne by lia; apply Hfresh; lia.
Qed.


(** With the table in the catalog under the name asked for, the body of
    [add_table] returns at line 128 and leaves the files as they are. *)
Lemma add_table_locked_present (path table_name : string)
  (data : pandas.DataFrame) (w : World) (table : Table) :
  faults w = [] →
  handles_fresh w →
  sqlite3.private_database path = false →
  content_at path w !! table_name = Some table →
  tbl_is_view table = false →
  add_table_locked path table_name data w =
  (Ok tt, set_next_handle (S (next_handle w)) w).
Proof.
  intros Hfaults Hfresh Hprivate Hpresent Htable.
  unfold content_at in Hpresent.
  unfold add_table_locked, add_table_create, add_table_finally, try_finally.
  run_engine.
  repeat first [ rewrite Hfaults | rewrite lookup_insert_eq | rewrite Hprivate
               | rewrite Hpresent | rewrite Htable | progress cbn ].
  f_equal. rewrite delete_insert_eq, delete_id by (apply Hfresh; lia).
  by destruct w.
Qed.

(** Past the guards, a second call of [add_table] under the same name
    changes nothing, whatever its sample is: when the first call returned
    normally, for a table name that is an identifier and under which the
    file holds nothing but, at most, a table in that very spelling, the
    table is in the file under that name, and the second call finds it in
    the catalog, returns normally and leaves the files as the first call
    left them. *)
Theorem add_table_locked_twice (path table_name : string)
  (first second : pandas.DataFrame) (w : World) :
  faults w = [] →
  handles_fresh w →
  sqlite3.names_a_file path = true →
  sqlite3.is_identifier table_name = true →
  (∀ name entry,
     sqlite3.same_name name table_name →
     content_at path w !! name = Some entry →
     name = table_name ∧ tbl_is_view entry = false) →
  (add_table_locked path table_name first w).1 = Ok tt →
  let after_first := (add_table_locked path table_name first w).2 in
  let after_second := (add_table_locked path table_name second after_first).2 in
  (∃ table, content_at path after_first !! table_name = Some table ∧
            tbl_is_view table = false) ∧
  (add_table_locked path table_name second after_first).1 = Ok tt ∧
  files after_second = files after_first.
Proof.
  intros Hfaults Hfresh Hfile _ Hspelling Hfirst after_first after_second.
  assert (Hprivate : sqlite3.private_database path = false).
  { unfold sqlite3.names_a_file in Hfile.
    apply andb_true_iff in Hfile as [Hfile _]. by apply negb_true_iff. }
  destruct (add_table_locked_calm path table_name first w Hfresh Hfaults)
    as [Hfresh' Hfaults'].
  fold after_first in Hfresh', Hfaults'.
  assert (Hthere : ∃ table,
            content_at path after_first !! table_name = Some table ∧
            tbl_is_view table = false).
  { pose proof (add_table_locked_cases path table_name first w) as H.
    unfold after_first.
    destruct (add_table_locked path table_name first w) as [r w1].
    cbn in Hfirst |- *.
    destruct H as [[Hfiles Hthere]|(_ & _ & defs & _ & Hfiles)].
    - unfold content_at in *. rewrite Hfiles.
      destruct (Hthere Hfirst) as [[_ Hexact]|[_ [Hp|[[name table] Hfound]]]].
      + done.
      + congruence.
      + apply find_table_Some in Hfound as [Hname Hsame].
        destruct (Hspelling name table Hsame Hname) as [-> Htable].
        by exists table.
    - exists (created_table table_name first defs). split; [|done].
      unfold content_at at 1.
      rewrite Hfiles, lookup_insert_eq. cbn. by rewrite lookup_insert_eq. }
  split; [done|]. destruct Hthere as (table & Htable & Hkind).
  unfold after_second.
  by rewrite (add_table_locked_present path table_name second after_first
                table Hfaults' Hfresh' Hprivate Htable Hkind).
Qed.

Lemma add_table_locked_twice_witness :
  let after_first :=
    (add_table_locked "t.db" "events" keyed_frame empty_world).2 in
  let after_second :=
    (add_table_locked "t.db" "events" unkeyed_frame after_first).2 in
  (∃ table, content_at "t.db" after_first !! "events" = Some table ∧
            tbl_is_view table = false) ∧
  (add_table_locked "t.db" "events" unkeyed_frame after_first).1 = Ok tt ∧
  files after_second = files after_first.
Proof.
  apply (add_table_locked_twice "t.db" "events" keyed_frame unkeyed_frame
           empty_world).
  - reflexivity.
  - intros h Hh. reflexivity.
  - reflexivity.
  - reflexivity.
  - intros name entry _ Hentry. discriminate Hentry.
  - reflexivity.
Defined.

(** ** Writing a batch a second time *)













(** ** Frames the statements cannot be built from *)

Lemma all_str_None (names : list (option string)) :
  None ∈ names → ∀ i, ∃ msg, all_str i names = Raise (TypeError msg).
Proof.
  induction names as [|[s|] names IH]; intros Hin i.
  - by apply elem_of_nil in Hin.
  - apply elem_of_cons in Hin as [?|Hin]; [done|].
    destruct (IH Hin (S i)) as [msg Hmsg]. exists msg.
    cbn [all_str]. by rewrite Hmsg.
  - by eexists.
Qed.

(** A frame with an unnamed index level cannot be written: building the
    [INSERT] statement joins the index names, [str.join] refuses the
    [None] among them, and [write_to_db] raises that [TypeError] before it
    opens a connection or touches anything. *)
Theorem write_to_db_insert_unnamed_index (path table_name : string)
  (data : pandas.DataFrame) (w : World) :
  None ∈ pandas.Index_names (pandas.index data) →
  ∃ msg, write_to_db_insert path table_name data w = (Raise (TypeError msg), w).
Proof.
  intros Hin.
  destruct (all_str_None
              (pandas.Index_names (pandas.index data) ++
               map Some (pandas.DataFrame_columns data))
              ltac:(apply elem_of_app; by left) 0%nat) as [msg Hmsg].
  exists msg. unfold write_to_db_insert, insert_sql, join_names, lift, bind.
  by rewrite Hmsg.
Qed.

Lemma write_to_db_insert_unnamed_index_witness :
  ∃ msg, write_to_db_insert "t.db" "events" unkeyed_frame empty_world =
         (Raise (TypeError msg), empty_world).
Proof.
  apply (write_to_db_insert_unnamed_index "t.db" "events" unkeyed_frame
           empty_world).
  constructor.
Defined.

Lemma add_table_column_definitions_flat (data : pandas.DataFrame)
  (name : option string) (dtype : pandas.Dtype) :
  pandas.index data = pandas.FlatIndex name dtype →
  add_table_column_definitions data =
  Raise (AttributeError "'Index' object has no attribute 'dtypes'").
Proof.
  intros Hindex. unfold add_table_column_definitions. by rewrite Hindex.
Qed.

(** Past the guards, [add_table] creates no table from a frame whose
    index is a plain single-level [pandas.Index]: lines 133-136 read
    [data.index.dtypes], which only a [MultiIndex] has, so the column
    definitions are never built and the files stay as they are. *)
Theorem add_table_needs_multi_index (path table_name : string)
  (data : pandas.DataFrame) (name : option string) (dtype : pandas.Dtype)
  (w : World) :
  pandas.index data = pandas.FlatIndex name dtype →
  files (add_table_locked path table_name data w).2 = files w ∧
  ((add_table_locked path table_name data w).1 = Ok tt →
   is_Some (content_at path w !! table_name)).
Proof.
  intros Hindex.
  pose proof (add_table_locked_cases path table_name data w) as H.
  destruct (add_table_locked path table_name data w) as [r w']. cbn.
  rewrite (add_table_column_definitions_flat data name dtype) in H by done.
  destruct H as [[Hfiles Hthere]|(_ & _ & defs & Hdefs & _)]; [|done].
  split; [done|]. intros Hr.
  by destruct (Hthere Hr) as [[_ (table & -> & _)]|[[defs Hdefs] _]].
Qed.

Lemma add_table_needs_multi_index_witness :
  files (add_table_locked "t.db" "events" scenario_frame empty_world).2 =
    files empty_world ∧
  ((add_table_locked "t.db" "events" scenario_frame empty_world).1 = Ok tt →
   is_Some (content_at "t.db" empty_world !! "events")).
Proof.
  apply (add_table_needs_multi_index "t.db" "events" scenario_frame
           (Some "path") pandas.object_dtype empty_world).
  reflexivity.
Defined.

(** ** The two-level frame, taken past the guards *)

Example keyed_frame_table_created :
  content_at "t.db"
    (add_table_locked "t.db" "events" keyed_frame empty_world).2 !! "events" =
  Some {| tbl_sql :=
            "CREATE TABLE events (" +:+ Str.LF +:+
            "    " +:+ Str.dquote +:+ "path" +:+ Str.dquote +:+ " TEXT," +:+ Str.LF +:+
            "    " +:+ Str.dquote +:+ "ts" +:+ Str.dquote +:+ " INTEGER," +:+ Str.LF +:+
            "    " +:+ Str.dquote +:+ "op" +:+ Str.dquote +:+ " TEXT," +:+ Str.LF +:+
            "    PRIMARY KEY (path, ts)" +:+ Str.LF +:+ ")";
          tbl_columns := ["path"; "ts"; "op"];
          tbl_primary_key := ["path"; "ts"];
          tbl_rows := [];
          tbl_is_view := false |}.
Proof. by vm_compute. Qed.

(** The table is created, the row is stored once, also when the table is
    named in another spelling, and a second write leaves the files as they
    are. *)
Example keyed_frame_written_twice :
  let created := (add_table_locked "t.db" "events" keyed_frame empty_world).2 in
  let once := (write_to_db_insert "t.db" "EVENTS" keyed_frame created).2 in
  let twice := (write_to_db_insert "t.db" "events" keyed_frame once).2 in
  tbl_rows <$> (content_at "t.db" once !! "events") =
    Some [[pandas.StrValue "/a"; pandas.IntValue 3; pandas.StrValue "create"]] ∧
  dom (content_at "t.db" once) = {["events"]} ∧
  files twice = files once ∧
  connections twice = ∅.
Proof. by vm_compute. Qed.

(** What the engine refuses: a reserved word and a name with a blank as
    table names, a key name that cannot stand without quotes, columns that
    differ in case only; and a database of the connection's own keeps
    nothing. *)
Example statements_refused :
  (add_table_locked "t.db" "group" keyed_frame empty_world).1 =
    Raise (sqlite3_Error "syntax error") ∧
  (add_table_locked "t.db" "my events" keyed_frame empty_world).1 =
    Raise (sqlite3_Error "syntax error") ∧
  files (add_table_locked ":memory:" "events" keyed_frame empty_world).2 = ∅ ∧
  (write_to_db_insert "t.db" "events" keyed_frame
     (add_table_locked "t.db" "Events" keyed_frame empty_world).2).1 = Ok tt.
Proof. by vm_compute. Qed.

(** A view in the way: [table_exists] does not see it, [CREATE TABLE IF
    NOT EXISTS] does and creates nothing, so [add_table] returns normally
    without the table; the [INSERT] that follows is refused. *)
Example view_in_the_way :
  add_table_locked "t.db" "events" keyed_frame world_with_view =
    (Ok tt, set_next_handle 1 world_with_view) ∧
  (write_to_db_insert "t.db" "events" keyed_frame world_with_view).1 =
    Raise (sqlite3_Error "cannot modify events because it is a view").
Proof. by vm_compute. Qed.

Lemma write_to_db_insert_outcome_witness :
  let created := (add_table_locked "t.db" "events" keyed_frame empty_world).2 in
  ∃ handle sql rows w1,
    (write_to_db_insert "t.db" "events" keyed_frame created).1 =
    (write_to_db_execute handle sql "events"
       (pandas.Index_names (pandas.index keyed_frame) ++
        map Some (pandas.DataFrame_columns keyed_frame)) rows w1).1.
Proof.
  eexists _, _, _, _.
  eapply (write_to_db_insert_outcome "t.db" "events" _ keyed_frame _
            eq_refl eq_refl
            (add_table_locked "t.db" "events" keyed_frame empty_world).2).
  reflexivity.
Defined.
